(** * X12 278 X215 QRE analyzer: a shallow embedding and its properties

    Source: [scripts/qre-analyzer/x12_278_qre_analyzer.py].

    The analyzer object ([self.config], [self.results],
    [self.segments_found], [self.query_method]) is an explicit state
    threaded through a state-and-exception monad; list and string
    indexing is fallible, as in Python, so that "never raises" is a
    theorem and not an artefact of the model. *)

From Stdlib Require Import Ascii String DecimalString.
From Stdlib Require Import List Bool Arith Lia NArith Permutation.
Import ListNotations.

(** ** Python strings *)

(** A [str] is a sequence of Unicode code points. *)
Definition char := N.
Definition str := list char.

(** String literals of the source. *)
Definition lit (s : string) : str := map N_of_ascii (list_ascii_of_string s).

Definition TILDE : char := 126%N. (* '~' *)
Definition STAR : char := 42%N.   (* '*' *)

Module Py.

(** [a == b] on strings. *)
Fixpoint eqb (a b : str) : bool :=
  match a, b with
  | [], [] => true
  | x :: a', y :: b' => N.eqb x y && eqb a' b'
  | _, _ => false
  end.

(** Truth value of a string or of a list: non-empty. *)
Definition truthy {A} (l : list A) : bool :=
  match l with [] => false | _ :: _ => true end.

(** [str.isspace] on one code point (CPython's [_PyUnicode_IsWhitespace]). *)
Definition isspace (c : char) : bool :=
  ((9 <=? c) && (c <=? 13) || (28 <=? c) && (c <=? 32)
   || (c =? 133) || (c =? 160) || (c =? 5760)
   || (8192 <=? c) && (c <=? 8202)
   || (c =? 8232) || (c =? 8233) || (c =? 8239) || (c =? 8287)
   || (c =? 12288))%N.

Fixpoint lstrip (s : str) : str :=
  match s with
  | [] => []
  | c :: s' => if isspace c then lstrip s' else s
  end.

Definition rstrip (s : str) : str := rev (lstrip (rev s)).

(** [s.strip()] *)
Definition strip (s : str) : str := rstrip (lstrip s).

(** [s.split(sep)] for a one-character separator, the only use in the
    source ([split('~')] and [split('*')]). *)
Fixpoint split (sep : char) (s : str) : list str :=
  match s with
  | [] => [[]]
  | c :: s' =>
      if N.eqb c sep then [] :: split sep s'
      else match split sep s' with
           | p :: ps => (c :: p) :: ps
           | [] => [[c]]
           end
  end.

(** [sep.join(l)] for a one-character separator. *)
Fixpoint join (sep : char) (l : list str) : str :=
  match l with
  | [] => []
  | [s] => s
  | s :: l' => s ++ sep :: join sep l'
  end.

(** [s.startswith(p)] *)
Fixpoint startswith (p s : str) : bool :=
  match p, s with
  | [], _ => true
  | x :: p', y :: s' => N.eqb x y && startswith p' s'
  | _ :: _, [] => false
  end.

(** [s.endswith(p)] *)
Definition endswith (p s : str) : bool := startswith (rev p) (rev s).

(** [x in l] for a list of strings. *)
Definition mem (x : str) (l : list str) : bool := existsb (eqb x) l.

(** [str(n)] for a non-negative integer. *)
Definition str_of_nat (n : nat) : str :=
  lit (NilZero.string_of_uint (Nat.to_uint n)).

(** [sum(1 for x in l if p(x))] *)
Definition sum1 {A} (p : A -> bool) (l : list A) : nat :=
  list_sum (map (fun _ => 1) (filter p l)).

End Py.

(** ** Data model *)

Inductive Severity := ERROR | WARNING | INFO.

Definition Severity_eqb (a b : Severity) : bool :=
  match a, b with
  | ERROR, ERROR | WARNING, WARNING | INFO, INFO => true
  | _, _ => false
  end.

Record ValidationResult := mkValidationResult {
  severity : Severity;
  code : str;
  message : str;
  segment : option str;
  line_number : option nat;
  context : list (str * str)
}.

(** Constructor call with the dataclass defaults for [line_number]
    and [context]. *)
Definition result_ (sev : Severity) (c m : str) (seg : option str)
    (ctx : list (str * str)) : ValidationResult :=
  mkValidationResult sev c m seg None ctx.

Record AnalysisReport := mkAnalysisReport {
  file_path : str;
  tr3_version : str;
  is_valid : bool;
  error_count : nat;
  warning_count : nat;
  info_count : nat;
  report_results : list ValidationResult;
  report_query_method : option str;
  report_segments_found : list str
}.

(** The loaded configuration: the keys the analyzer reads. *)
Record Config := mkConfig {
  tr3Version : str;
  validateEnvelopes : bool;
  requiredSegments : list str;
  minimalDataPrinciple : bool;
  failOnWarnings : bool
}.

(** The analyzer object.  [query_method] is an attribute that exists
    only once [_detect_query_method] has run. *)
Record Analyzer := mkAnalyzer {
  config : Config;
  results : list ValidationResult;
  segments_found : list str;
  query_method : option str
}.

(** [X12_278_QRE_Analyzer.__init__], after the configuration is loaded. *)
Definition init (cfg : Config) : Analyzer := mkAnalyzer cfg [] [] None.

(** ** State and exception monad *)

Inductive exn := IndexError.

Definition M (A : Type) : Type := Analyzer -> exn + (A * Analyzer).

Definition ret {A} (a : A) : M A := fun self => inr (a, self).

Definition bind {A B} (m : M A) (k : A -> M B) : M B :=
  fun self =>
    match m self with
    | inl e => inl e
    | inr (a, self') => k a self'
    end.

Definition raise {A} (e : exn) : M A := fun _ => inl e.

Declare Scope py_scope.
Delimit Scope py_scope with py.
Notation "x <- m ;; k" := (bind m (fun x => k))
  (at level 61, m at next level, right associativity) : py_scope.
Notation "m ;; k" := (bind m (fun _ => k))
  (at level 61, right associativity) : py_scope.
Open Scope py_scope.

Definition get_config : M Config := fun self => inr (config self, self).
Definition get_results : M (list ValidationResult) :=
  fun self => inr (results self, self).
Definition get_segments_found : M (list str) :=
  fun self => inr (segments_found self, self).
Definition get_query_method : M (option str) :=
  fun self => inr (query_method self, self).

Definition set_results (l : list ValidationResult) : M unit :=
  fun self => inr (tt, mkAnalyzer (config self) l (segments_found self)
                                  (query_method self)).
Definition set_segments_found (l : list str) : M unit :=
  fun self => inr (tt, mkAnalyzer (config self) (results self) l
                                  (query_method self)).
Definition set_query_method (q : str) : M unit :=
  fun self => inr (tt, mkAnalyzer (config self) (results self)
                                  (segments_found self) (Some q)).

(** [self.results.append(r)] *)
Definition results_append (r : ValidationResult) : M unit :=
  fun self => inr (tt, mkAnalyzer (config self) (results self ++ [r])
                                  (segments_found self) (query_method self)).

(** [self.segments_found.append(x)] *)
Definition segments_found_append (x : str) : M unit :=
  fun self => inr (tt, mkAnalyzer (config self) (results self)
                                  (segments_found self ++ [x])
                                  (query_method self)).

(** [l[i]]: raises [IndexError] out of range. *)
Definition index {A} (l : list A) (i : nat) : M A :=
  match nth_error l i with
  | Some a => ret a
  | None => raise IndexError
  end.

(** [a and b], [b] evaluated only when [a] holds. *)
Definition and_ (a : bool) (b : M bool) : M bool :=
  if a then b else ret false.

(** [if c: body] *)
Definition when (c : bool) (body : M unit) : M unit :=
  if c then body else ret tt.

(** [for x in l: body(x)] *)
Fixpoint for_ {A} (l : list A) (body : A -> M unit) : M unit :=
  match l with
  | [] => ret tt
  | x :: l' => body x ;; for_ l' body
  end.

(** ** The analyzer *)

Definition ISA_missing : ValidationResult :=
  result_ ERROR (lit "ENV001")
    (lit "Missing ISA segment (Interchange Control Header)")
    (Some (lit "ISA")) [].

Definition ISA_multiple (n : nat) : ValidationResult :=
  result_ WARNING (lit "ENV002")
    (lit "Multiple ISA segments found (" ++ Py.str_of_nat n ++ lit ")")
    (Some (lit "ISA")) [].

Definition GS_missing : ValidationResult :=
  result_ ERROR (lit "ENV003")
    (lit "Missing GS segment (Functional Group Header)")
    (Some (lit "GS")) [].

Definition ST_missing : ValidationResult :=
  result_ ERROR (lit "ENV004")
    (lit "Missing ST segment (Transaction Set Header)")
    (Some (lit "ST")) [].

Definition ST_bad_code (found : str) : ValidationResult :=
  result_ ERROR (lit "ENV005")
    (lit "Invalid transaction code: expected '278', found '" ++ found
       ++ lit "'")
    (Some (lit "ST")) [].

Definition ST_bad_version (found ctx : str) : ValidationResult :=
  result_ WARNING (lit "ENV006")
    (lit "Implementation guide version '" ++ found
       ++ lit "' may not be 005010X215")
    (Some (lit "ST")) [(lit "version", ctx)].

Definition segment_missing (seg_id : str) : ValidationResult :=
  result_ ERROR (lit "QRE001")
    (lit "Missing required segment: " ++ seg_id)
    (Some seg_id) [].

Definition BHT_bad_code (found ctx : str) : ValidationResult :=
  result_ WARNING (lit "QRE002")
    (lit "BHT01 should be '0007' for inquiry, found '" ++ found ++ lit "'")
    (Some (lit "BHT")) [(lit "bht01", ctx)].

Definition UM_recommended : ValidationResult :=
  result_ WARNING (lit "QRE003")
    (lit "UM segment (Health Care Services Review Information) is recommended for QRE")
    (Some (lit "UM")) [].

Definition HCR_action (found ctx : str) : ValidationResult :=
  result_ INFO (lit "QRE004")
    (lit "HCR01 action code is '" ++ found
       ++ lit "' (I1=Inquiry is recommended)")
    (Some (lit "HCR")) [(lit "hcr01", ctx)].

Definition by_authorization : ValidationResult :=
  result_ INFO (lit "QRE005")
    (lit "Query method: Authorization Number (REF*D9 segment found)")
    (Some (lit "REF")) [].

Definition by_demographics : ValidationResult :=
  result_ INFO (lit "QRE006")
    (lit "Query method: Member Demographics (NM1*IL and DMG segments found)")
    (Some (lit "NM1")) [].

Definition method_unknown : ValidationResult :=
  result_ WARNING (lit "QRE007")
    (lit "Cannot determine query method (need REF*D9 OR (NM1*IL + DMG))")
    (Some (lit "REF")) [].

Definition SYS_error (error_msg : str) : ValidationResult :=
  result_ ERROR (lit "SYS001") error_msg None [].

(** [_validate_envelopes] *)
Definition _validate_envelopes (segments : list str) : M unit :=
  cfg <- get_config ;;
  if negb (validateEnvelopes cfg) then ret tt else
  (* Check ISA *)
  let isa_segments := filter (Py.startswith (lit "ISA*")) segments in
  (if length isa_segments =? 0 then results_append ISA_missing
   else if 1 <? length isa_segments
        then results_append (ISA_multiple (length isa_segments))
        else ret tt) ;;
  (* Check GS *)
  let gs_segments := filter (Py.startswith (lit "GS*")) segments in
  when (length gs_segments =? 0) (results_append GS_missing) ;;
  (* Check ST *)
  let st_segments := filter (Py.startswith (lit "ST*")) segments in
  if length st_segments =? 0 then results_append ST_missing
  else
    st0 <- index st_segments 0 ;;
    let st_elements := Py.split STAR st0 in
    c1 <- and_ (2 <=? length st_elements)
               (e <- index st_elements 1 ;;
                ret (negb (Py.eqb e (lit "278")))) ;;
    when c1 (found <- index st_elements 1 ;;
             results_append (ST_bad_code found)) ;;
    c2 <- and_ (4 <=? length st_elements)
               (e <- index st_elements 3 ;;
                ret (negb (Py.endswith (lit "X215") e))) ;;
    when c2 (found <- index st_elements 3 ;;
             ctx <- index st_elements 3 ;;
             results_append (ST_bad_version found ctx)).

(** [_validate_required_segments] *)
Definition _validate_required_segments : M unit :=
  cfg <- get_config ;;
  let required := requiredSegments cfg in
  for_ required (fun seg_id =>
    found <- get_segments_found ;;
    when (negb (Py.mem seg_id found))
         (results_append (segment_missing seg_id))).

(** [_validate_qre_requirements] *)
Definition _validate_qre_requirements (segments : list str) : M unit :=
  cfg <- get_config ;;
  if negb (minimalDataPrinciple cfg) then ret tt else
  (* BHT *)
  let bht_segments := filter (Py.startswith (lit "BHT*")) segments in
  when (Py.truthy bht_segments)
    (bht0 <- index bht_segments 0 ;;
     let bht_elements := Py.split STAR bht0 in
     when (2 <=? length bht_elements)
       (e <- index bht_elements 1 ;;
        when (negb (Py.eqb e (lit "0007")))
          (found <- index bht_elements 1 ;;
           ctx <- index bht_elements 1 ;;
           results_append (BHT_bad_code found ctx)))) ;;
  (* UM *)
  let um_segments := filter (Py.startswith (lit "UM*")) segments in
  when (negb (Py.truthy um_segments)) (results_append UM_recommended) ;;
  (* HCR *)
  let hcr_segments := filter (Py.startswith (lit "HCR*")) segments in
  when (Py.truthy hcr_segments)
    (hcr0 <- index hcr_segments 0 ;;
     let hcr_elements := Py.split STAR hcr0 in
     when (2 <=? length hcr_elements)
       (e <- index hcr_elements 1 ;;
        when (negb (Py.mem e [lit "I1"; lit "A1"; lit "A2"; lit "A3";
                              lit "A4"]))
          (found <- index hcr_elements 1 ;;
           ctx <- index hcr_elements 1 ;;
           results_append (HCR_action found ctx)))).

(** [_detect_query_method] *)
Definition _detect_query_method (segments : list str) : M unit :=
  let has_ref_auth := existsb (Py.startswith (lit "REF*D9*")) segments in
  let has_member_id := existsb (Py.startswith (lit "NM1*IL*")) segments in
  let has_dob := existsb (Py.startswith (lit "DMG*")) segments in
  if has_ref_auth then
    set_query_method (lit "ByAuthorizationNumber") ;;
    results_append by_authorization
  else if has_member_id && has_dob then
    set_query_method (lit "ByMemberDemographics") ;;
    results_append by_demographics
  else
    set_query_method (lit "Unknown") ;;
    results_append method_unknown.

(** [_generate_report] *)
Definition _generate_report (path : str) : M AnalysisReport :=
  rs <- get_results ;;
  let error_count := Py.sum1 (fun r => Severity_eqb (severity r) ERROR) rs in
  let warning_count :=
    Py.sum1 (fun r => Severity_eqb (severity r) WARNING) rs in
  let info_count := Py.sum1 (fun r => Severity_eqb (severity r) INFO) rs in
  let is_valid := error_count =? 0 in
  cfg <- get_config ;;
  let is_valid :=
    if failOnWarnings cfg then is_valid && (warning_count =? 0)
    else is_valid in
  rs' <- get_results ;;
  qm <- get_query_method ;;
  found <- get_segments_found ;;
  ret (mkAnalysisReport path (tr3Version cfg) is_valid error_count
         warning_count info_count rs' qm found).

(** [_create_error_report] *)
Definition _create_error_report (path error_msg : str) : M AnalysisReport :=
  cfg <- get_config ;;
  ret (mkAnalysisReport path (tr3Version cfg) false 1 0 0
         [SYS_error error_msg] None []).

(** Outcome of [open(file_path).read()] under the [try]: the text, or
    [str(e)] of the exception caught. *)
Inductive read_outcome :=
| ReadOk (content : str)
| ReadFailed (e : str).

(** Lines 84-85: [content.split('~')] followed by the comprehension
    [[s.strip() for s in segments if s.strip()]]. *)
Definition strip_nonempty (segments : list str) : list str :=
  map Py.strip (filter (fun s => Py.truthy (Py.strip s)) segments).

Definition extract_segments (content : str) : list str :=
  let segments := Py.split TILDE content in
  strip_nonempty segments.

(** Lines 88-91: the loop that fills [self.segments_found]. *)
Definition extract_identifiers (segments : list str) : M unit :=
  for_ segments (fun segment =>
    when (Py.truthy segment)
      (seg_id <- index (Py.split STAR segment) 0 ;;
       segments_found_append seg_id)).

(** [analyze_file], given what reading [file_path] produced. *)
Definition analyze_file (path : str) (rd : read_outcome) : M AnalysisReport :=
  match rd with
  | ReadFailed e =>
      _create_error_report path (lit "Failed to read file: " ++ e)
  | ReadOk content =>
      set_results [] ;;
      set_segments_found [] ;;
      let segments := extract_segments content in
      extract_identifiers segments ;;
      _validate_envelopes segments ;;
      _validate_required_segments ;;
      _validate_qre_requirements segments ;;
      _detect_query_method segments ;;
      _generate_report path
  end.

(** ** Observing one pass

    What a pass appends to [self.results], read off a run of the pass
    itself on a fresh analyzer whose [segments_found] is [found]. *)

Definition appended (m : M unit) (cfg : Config) (found : list str)
    : list ValidationResult :=
  match m (mkAnalyzer cfg [] found None) with
  | inr (_, self') => results self'
  | inl _ => []
  end.

Definition envelope_findings (cfg : Config) (segments : list str) :=
  appended (_validate_envelopes segments) cfg [].

Definition required_findings (cfg : Config) (found : list str) :=
  appended _validate_required_segments cfg found.

Definition qre_findings (cfg : Config) (segments : list str) :=
  appended (_validate_qre_requirements segments) cfg [].

Definition query_findings (cfg : Config) (segments : list str) :=
  appended (_detect_query_method segments) cfg [].

(** The attribute [self.query_method] after [_detect_query_method]. *)
Definition detected_method (cfg : Config) (segments : list str)
    : option str :=
  match _detect_query_method segments (mkAnalyzer cfg [] [] None) with
  | inr (_, self') => query_method self'
  | inl _ => None
  end.

(** The analyzer with [l] appended to [self.results]. *)
Definition push (self : Analyzer) (l : list ValidationResult) : Analyzer :=
  mkAnalyzer (config self) (results self ++ l) (segments_found self)
             (query_method self).

(** A computation that only appends findings: run on an analyzer with
    configuration [cfg] and identifier list [found], it returns normally
    and changes nothing but [self.results], which it extends by a list
    that does not depend on the findings already there. *)
Definition appends_only (cfg : Config) (found : list str) (m : M unit)
    : Prop :=
  exists l, forall rs qm,
    m (mkAnalyzer cfg rs found qm) = inr (tt, mkAnalyzer cfg (rs ++ l) found qm).

(** ** Vocabulary of the specification *)

(** Elements of a segment: the record split on the field delimiter. *)
Definition elements (s : str) : list str := Py.split STAR s.

(** Identifier of a record: the text before the first ['*'], or the whole
    record when it has none. *)
Fixpoint identifier (s : str) : str :=
  match s with
  | [] => []
  | c :: s' => if N.eqb c STAR then [] else c :: identifier s'
  end.

(** [n]-th element (from 0) of a segment equals [v]. *)
Definition element_is (n : nat) (v : str) (s : str) : bool :=
  match nth_error (elements s) n with
  | Some e => Py.eqb e v
  | None => false
  end.

(** Segment extraction as the specification words it: split on the
    terminator, trim every candidate, drop the empty ones, and pair the
    records with their identifiers. *)
Definition spec_extract (content : str) : list str * list str :=
  let records :=
    filter (fun r => negb (Py.eqb r []))
           (map Py.strip (Py.split TILDE content)) in
  (records, map identifier records).

(** The segment begins with the elements [es] and has at least one more
    element after them. *)
Fixpoint list_eqb (a b : list str) : bool :=
  match a, b with
  | [], [] => true
  | x :: a', y :: b' => Py.eqb x y && list_eqb a' b'
  | _, _ => false
  end.

Definition has_fields (es : list str) (s : str) : bool :=
  (length es <? length (elements s))
  && list_eqb (firstn (length es) (elements s)) es.

(** Findings carrying a given rule code or severity. *)
Definition code_is (c : string) (r : ValidationResult) : bool :=
  Py.eqb (code r) (lit c).

Definition with_code (c : string) (l : list ValidationResult) :=
  filter (code_is c) l.

Definition count_severity (sev : Severity) (l : list ValidationResult) : nat :=
  length (filter (fun r => Severity_eqb (severity r) sev) l).

(** A finding names the segment identifier [seg_id]. *)
Definition names (seg_id : str) (r : ValidationResult) : bool :=
  match segment r with
  | Some x => Py.eqb x seg_id
  | None => false
  end.

(** Query-method inference as the specification words it: predicates on
    identifier and second element. *)
Definition spec_has_ref_auth (segments : list str) : bool :=
  existsb (fun s => Py.eqb (identifier s) (lit "REF")
                    && element_is 1 (lit "D9") s) segments.

Definition spec_has_member_id (segments : list str) : bool :=
  existsb (fun s => Py.eqb (identifier s) (lit "NM1")
                    && element_is 1 (lit "IL") s) segments.

Definition spec_has_dob (segments : list str) : bool :=
  existsb (fun s => Py.eqb (identifier s) (lit "DMG")) segments.

Definition spec_query_method (segments : list str)
    : str * ValidationResult :=
  if spec_has_ref_auth segments
  then (lit "ByAuthorizationNumber", by_authorization)
  else if spec_has_member_id segments && spec_has_dob segments
  then (lit "ByMemberDemographics", by_demographics)
  else (lit "Unknown", method_unknown).

(** A string that is empty or starts with a non-space: what [lstrip]
    leaves. *)
Definition no_lead (s : str) : Prop :=
  match s with [] => True | c :: _ => Py.isspace c = false end.

(** Segments whose identifier is [seg_id]. *)
Definition with_identifier (seg_id : str) (segments : list str) : list str :=
  filter (fun s => Py.eqb (identifier s) seg_id) segments.

(** The record contains a field delimiter. *)
Definition has_delimiter (s : str) : bool := existsb (N.eqb STAR) s.

(** ** Three rules as the specification words them

    The specification selects segments by identifier.  These predicates
    state its sentences literally, for one configuration and one segment
    list, so that they can be compared with what the passes do. *)

(** "Zero segments with identifier ISA: one missing-header ERROR and no
    count WARNING; more than one: one count WARNING and no ERROR; exactly
    one: neither." *)
Definition ISA_rule_by_identifier (cfg : Config) (segments : list str)
    : Prop :=
  let n := length (with_identifier (lit "ISA") segments) in
  let new := envelope_findings cfg segments in
  (n = 0 -> with_code "ENV001" new = [ISA_missing]
            /\ with_code "ENV002" new = [])
  /\ (1 < n -> with_code "ENV002" new = [ISA_multiple n]
               /\ with_code "ENV001" new = [])
  /\ (n = 1 -> with_code "ENV001" new = [] /\ with_code "ENV002" new = []).

(** The findings the transaction-code and version checks give for one ST
    segment. *)
Definition ST_code_check (st0 : str) : list ValidationResult :=
  match nth_error (elements st0) 1 with
  | Some e => if Py.eqb e (lit "278") then [] else [ST_bad_code e]
  | None => []
  end.

Definition ST_version_check (st0 : str) : list ValidationResult :=
  match nth_error (elements st0) 3 with
  | Some e =>
      if Py.endswith (lit "X215") e then [] else [ST_bad_version e e]
  | None => []
  end.

(** "When at least one segment has identifier ST, only the first of them
    is inspected." *)
Definition ST_rule_by_identifier (cfg : Config) (segments : list str)
    : Prop :=
  forall st0 rest,
    with_identifier (lit "ST") segments = st0 :: rest ->
    with_code "ENV005" (envelope_findings cfg segments) = ST_code_check st0
    /\ with_code "ENV006" (envelope_findings cfg segments)
       = ST_version_check st0.

(** "Query-method inference decides on identifier and second element." *)
Definition query_rule_by_identifier (cfg : Config) (segments : list str)
    : Prop :=
  detected_method cfg segments = Some (fst (spec_query_method segments))
  /\ query_findings cfg segments = [snd (spec_query_method segments)].

(** ** Report export and command line *)

(** [severity.value] *)
Definition Severity_value (s : Severity) : str :=
  match s with
  | ERROR => lit "ERROR"
  | WARNING => lit "WARNING"
  | INFO => lit "INFO"
  end.

(** The values handed to [json.dump]: [None], booleans, integers,
    strings, lists, and dictionaries in insertion order. *)
#[local] Set Warnings "-register-all".
Inductive json :=
| JNull
| JBool (b : bool)
| JInt (n : nat)
| JStr (s : str)
| JList (items : list json)
| JObj (fields : list (str * json)).
#[local] Set Warnings "register-all".

(** An [Optional] attribute: [None] or the value. *)
Definition json_optional {A} (f : A -> json) (o : option A) : json :=
  match o with
  | Some a => f a
  | None => JNull
  end.

(** One entry of the ["results"] list of [export_report_json]. *)
Definition result_dict (r : ValidationResult) : json :=
  JObj [(lit "severity", JStr (Severity_value (severity r)));
        (lit "code", JStr (code r));
        (lit "message", JStr (message r));
        (lit "segment", json_optional JStr (segment r));
        (lit "line_number", json_optional JInt (line_number r));
        (lit "context",
         JObj (map (fun kv => (fst kv, JStr (snd kv))) (context r)))].

(** [report_dict] of [export_report_json]. *)
Definition report_dict (report : AnalysisReport) : json :=
  JObj [(lit "file_path", JStr (file_path report));
        (lit "tr3_version", JStr (tr3_version report));
        (lit "is_valid", JBool (is_valid report));
        (lit "error_count", JInt (error_count report));
        (lit "warning_count", JInt (warning_count report));
        (lit "info_count", JInt (info_count report));
        (lit "query_method",
         json_optional JStr (report_query_method report));
        (lit "segments_found",
         JList (map JStr (report_segments_found report)));
        (lit "results", JList (map result_dict (report_results report)))].








(** A record as it stands in a well-formed file: non-empty, without
    surrounding whitespace, without the record terminator. *)
Definition clean (r : str) : Prop :=
  Py.truthy r = true /\ Py.strip r = r /\ ~ In TILDE r.

(** * Properties *)

(** ** Python string primitives *)

Module PyFacts.

Lemma eqb_refl (a : str) : Py.eqb a a = true.
Proof.
  induction a as [|x a IH]; simpl; [reflexivity|].
  now rewrite N.eqb_refl, IH.
Qed.

Lemma eqb_eq (a b : str) : Py.eqb a b = true <-> a = b.
Proof.
  split; [|intros ->; apply eqb_refl].
  revert b; induction a as [|x a IH]; intros [|y b]; simpl;
    try discriminate; [reflexivity|].
  intros H; apply andb_true_iff in H as [Hx Hr].
  apply N.eqb_eq in Hx; subst; f_equal; auto.
Qed.

Lemma eqb_neq (a b : str) : Py.eqb a b = false <-> a <> b.
Proof.
  rewrite <- eqb_eq; destruct (Py.eqb a b); split; congruence.
Qed.

Lemma truthy_eqb_nil (s : str) : Py.truthy s = negb (Py.eqb s []).
Proof. now destruct s. Qed.

(** *** split and join *)

Lemma split_not_nil sep s : Py.split sep s <> [].
Proof.
  destruct s as [|c s]; simpl; [discriminate|].
  destruct (N.eqb c sep); [discriminate|].
  destruct (Py.split sep s); discriminate.
Qed.

Lemma split_cons_sep sep s : Py.split sep (sep :: s) = [] :: Py.split sep s.
Proof. simpl; now rewrite N.eqb_refl. Qed.

Lemma split_cons_other sep c s :
  c <> sep ->
  exists p ps, Py.split sep s = p :: ps
               /\ Py.split sep (c :: s) = (c :: p) :: ps.
Proof.
  intros Hc; simpl.
  apply N.eqb_neq in Hc; rewrite Hc.
  destruct (Py.split sep s) as [|p ps] eqn:E.
  - now apply split_not_nil in E.
  - now exists p, ps.
Qed.

(** No piece of a split contains the separator. *)
Lemma split_no_sep sep s : Forall (fun p => ~ In sep p) (Py.split sep s).
Proof.
  induction s as [|c s IH]; simpl.
  - constructor; [intros []|constructor].
  - destruct (N.eqb c sep) eqn:E.
    + constructor; [intros []|assumption].
    + apply N.eqb_neq in E.
      destruct (Py.split sep s) as [|p ps]; [repeat constructor|].
      * intros [H|[]]; congruence.
      * inversion IH; subst; constructor; [|assumption].
        intros [H|H]; [congruence|contradiction].
Qed.

(** Splitting a piece that has no separator, followed by a separator. *)
Lemma split_app_sep sep p s :
  ~ In sep p -> Py.split sep (p ++ sep :: s) = p :: Py.split sep s.
Proof.
  induction p as [|c p IH]; intros Hp; simpl.
  - now rewrite N.eqb_refl.
  - assert (Hc : c <> sep) by (intros ->; apply Hp; now left).
    apply N.eqb_neq in Hc; rewrite Hc, IH; [reflexivity|].
    intros H; apply Hp; now right.
Qed.

Lemma split_no_sep_whole sep p : ~ In sep p -> Py.split sep p = [p].
Proof.
  induction p as [|c p IH]; intros Hp; simpl; [reflexivity|].
  assert (Hc : c <> sep) by (intros ->; apply Hp; now left).
  apply N.eqb_neq in Hc; rewrite Hc, IH; [reflexivity|].
  intros H; apply Hp; now right.
Qed.

Lemma join_cons sep s l :
  l <> [] -> Py.join sep (s :: l) = s ++ sep :: Py.join sep l.
Proof. destruct l; [congruence|reflexivity]. Qed.

Lemma join_split sep s : Py.join sep (Py.split sep s) = s.
Proof.
  induction s as [|c s IH]; [reflexivity|].
  simpl Py.split.
  destruct (N.eqb c sep) eqn:E.
  - apply N.eqb_eq in E; subst c.
    rewrite join_cons by apply split_not_nil.
    now rewrite IH.
  - destruct (Py.split sep s) as [|p ps] eqn:Es.
    + now apply split_not_nil in Es.
    + destruct ps as [|q ps]; simpl in *; now rewrite <- IH.
Qed.

Lemma split_join sep l :
  l <> [] -> Forall (fun p => ~ In sep p) l ->
  Py.split sep (Py.join sep l) = l.
Proof.
  induction l as [|p l IH]; [congruence|].
  intros _ Hall; inversion Hall as [|? ? Hp Hl]; subst.
  destruct l as [|q l].
  - simpl; now apply split_no_sep_whole.
  - rewrite join_cons by discriminate.
    rewrite split_app_sep by assumption.
    f_equal; apply IH; [discriminate|assumption].
Qed.

(** The first piece of a split is the text before the first separator. *)
Lemma split_head s :
  exists rest, Py.split STAR s = identifier s :: rest.
Proof.
  induction s as [|c s [rest IH]]; simpl.
  - now exists [].
  - destruct (N.eqb c STAR).
    + now exists (Py.split STAR s).
    + rewrite IH; now exists rest.
Qed.

Lemma identifier_no_star s : ~ In STAR s -> identifier s = s.
Proof.
  induction s as [|c s IH]; intros H; simpl; [reflexivity|].
  destruct (N.eqb c STAR) eqn:E.
  - apply N.eqb_eq in E; subst; exfalso; apply H; now left.
  - f_equal; apply IH; intros Hin; apply H; now right.
Qed.

(** *** startswith *)

Lemma startswith_app p s :
  Py.startswith p s = true <-> exists r, s = p ++ r.
Proof.
  revert s; induction p as [|x p IH]; intros s; simpl.
  - split; [now exists s|reflexivity].
  - destruct s as [|y s]; [split; [discriminate|intros [r Hr]; discriminate]|].
    rewrite andb_true_iff, N.eqb_eq, IH.
    split.
    + intros [-> [r ->]]; now exists r.
    + intros [r Hr]; injection Hr as -> ->; split; [reflexivity|now exists r].
Qed.

(** *** strip *)

Lemma lstrip_incl s c : In c (Py.lstrip s) -> In c s.
Proof.
  induction s as [|x s IH]; simpl; [tauto|].
  destruct (Py.isspace x); [right; auto|tauto].
Qed.

Lemma strip_incl s c : In c (Py.strip s) -> In c s.
Proof.
  unfold Py.strip, Py.rstrip; intros H.
  apply in_rev, lstrip_incl, in_rev in H.
  now apply lstrip_incl.
Qed.

Lemma lstrip_no_lead s : no_lead (Py.lstrip s).
Proof.
  induction s as [|x s IH]; simpl; [exact I|].
  destruct (Py.isspace x) eqn:E; [assumption|exact E].
Qed.

Lemma lstrip_fixed s : no_lead s -> Py.lstrip s = s.
Proof. destruct s as [|x s]; simpl; [reflexivity|now intros ->]. Qed.

(** [lstrip] removes a prefix: the input is some spaces followed by the
    output. *)
Lemma lstrip_suffix s : exists w, s = w ++ Py.lstrip s.
Proof.
  induction s as [|x s [w IH]]; simpl; [now exists []|].
  destruct (Py.isspace x); [|now exists []].
  exists (x :: w); simpl; now f_equal.
Qed.

(** [rstrip] keeps the head of a string it does not empty. *)
Lemma rstrip_no_lead s : no_lead s -> no_lead (Py.rstrip s).
Proof.
  unfold Py.rstrip; intros H.
  destruct (lstrip_suffix (rev s)) as [w Hw].
  apply (f_equal (@rev char)) in Hw.
  rewrite rev_involutive, rev_app_distr in Hw.
  destruct (rev (Py.lstrip (rev s))) as [|c t]; [exact I|].
  rewrite Hw in H; exact H.
Qed.

Lemma rstrip_idem s : Py.rstrip (Py.rstrip s) = Py.rstrip s.
Proof.
  unfold Py.rstrip; rewrite rev_involutive.
  f_equal; apply lstrip_fixed, lstrip_no_lead.
Qed.

Lemma strip_idem s : Py.strip (Py.strip s) = Py.strip s.
Proof.
  unfold Py.strip.
  rewrite (lstrip_fixed _ (rstrip_no_lead _ (lstrip_no_lead s))).
  apply rstrip_idem.
Qed.

End PyFacts.

(** ** Reasoning about runs *)

Module Run.

Section Rules.
Variables (cfg : Config) (found : list str).
Let ok := appends_only cfg found.

Lemma ret_tt : ok (ret tt).
Proof. exists []; intros; unfold ret; now rewrite app_nil_r. Qed.

Lemma append r : ok (results_append r).
Proof. now exists [r]. Qed.

Lemma seq m1 m2 : ok m1 -> ok m2 -> ok (m1 ;; m2).
Proof.
  intros [l1 H1] [l2 H2]; exists (l1 ++ l2); intros rs qm.
  unfold bind; now rewrite H1, H2, app_assoc.
Qed.

Lemma read_config k : ok (k cfg) -> ok (c <- get_config ;; k c).
Proof. intros [l H]; exists l; intros; unfold bind; simpl; apply H. Qed.

Lemma read_found k : ok (k found) -> ok (x <- get_segments_found ;; k x).
Proof. intros [l H]; exists l; intros; unfold bind; simpl; apply H. Qed.

Lemma at_index {A} (l : list A) i a k :
  nth_error l i = Some a -> ok (k a) -> ok (x <- index l i ;; k x).
Proof.
  intros E [r H]; exists r; intros.
  unfold bind, index; rewrite E; apply H.
Qed.

Lemma guarded c m : (c = true -> ok m) -> ok (when c m).
Proof. destruct c; simpl; [auto|intros _; apply ret_tt]. Qed.

(** [c <- a and P(l[i]) ;; k c] with [a] guarding the index; the
    continuation may rely on [a] whenever the test came out true. *)
Lemma guarded_test {A} a (l : list A) i f k :
  (a = true -> i < length l) ->
  (forall c, (c = true -> a = true) -> ok (k c)) ->
  ok (c <- and_ a (e <- index l i ;; ret (f e)) ;; k c).
Proof.
  intros Hi Hk; destruct a; simpl.
  - destruct (nth_error l i) as [e|] eqn:E.
    + destruct (Hk (f e)) as [r H]; [reflexivity|].
      exists r; intros.
      unfold bind, index; rewrite E; apply H.
    + apply nth_error_None in E; specialize (Hi eq_refl); lia.
  - destruct (Hk false) as [r H]; [discriminate|].
    exists r; intros; apply H.
Qed.

Lemma loop {A} (l : list A) body :
  (forall x, ok (body x)) -> ok (for_ l body).
Proof.
  intros Hb; induction l as [|x l IH]; simpl;
    [apply ret_tt|apply seq; auto].
Qed.

Lemma run_mk m rs qm :
  ok m ->
  m (mkAnalyzer cfg rs found qm)
  = inr (tt, mkAnalyzer cfg (rs ++ appended m cfg found) found qm).
Proof.
  intros [l H]; unfold appended; now rewrite (H [] None), (H rs qm).
Qed.

(** What a computation that only appends does on any analyzer. *)
Lemma run m self :
  ok m -> config self = cfg -> segments_found self = found ->
  m self = inr (tt, push self (appended m cfg found)).
Proof.
  intros [l H]; destruct self as [c rs fd qm]; simpl.
  intros -> ->; unfold appended, push; simpl.
  now rewrite (H [] None), (H rs qm).
Qed.

End Rules.

Create HintDb run.
#[global] Hint Resolve ret_tt append seq read_config read_found guarded
  loop : run.

End Run.

(** ** The four passes return normally and only append *)

Lemma filter_head_index {A} (p : A -> bool) (l : list A) :
  (length (filter p l) =? 0) = false ->
  exists x rest, filter p l = x :: rest /\ nth_error (filter p l) 0 = Some x.
Proof.
  destruct (filter p l) as [|x rest]; simpl; [discriminate|].
  intros _; now exists x, rest.
Qed.

Lemma truthy_head_index {A} (l : list A) :
  Py.truthy l = true -> exists x, nth_error l 0 = Some x.
Proof. destruct l as [|x l]; simpl; [discriminate|now exists x]. Qed.

Lemma leb_index {A} (l : list A) i :
  (S i <=? length l) = true -> exists x, nth_error l i = Some x.
Proof.
  intros H; apply Nat.leb_le in H.
  destruct (nth_error l i) as [x|] eqn:E; [now exists x|].
  apply nth_error_None in E; lia.
Qed.

Lemma validate_envelopes_appends cfg found segments :
  appends_only cfg found (_validate_envelopes segments).
Proof.
  unfold _validate_envelopes; cbv zeta.
  apply Run.read_config.
  destruct (validateEnvelopes cfg); cbn [negb]; [|apply Run.ret_tt].
  apply Run.seq.
  { destruct (_ =? 0); [apply Run.append|].
    destruct (1 <? _); [apply Run.append|apply Run.ret_tt]. }
  apply Run.seq; [auto with run|].
  destruct (length (filter (Py.startswith (lit "ST*")) segments) =? 0) eqn:E;
    [apply Run.append|].
  destruct (filter_head_index _ _ E) as (st0 & rest & _ & Hst0).
  eapply Run.at_index; [exact Hst0|].
  apply Run.guarded_test; [intros H; apply Nat.leb_le in H; lia|intros c1 H1].
  apply Run.seq.
  { apply Run.guarded; intros ->.
    destruct (leb_index _ _ (H1 eq_refl)) as [e He].
    eapply Run.at_index; [exact He|apply Run.append]. }
  apply Run.guarded_test; [intros H; apply Nat.leb_le in H; lia|intros c2 H2].
  apply Run.guarded; intros ->.
  destruct (leb_index _ _ (H2 eq_refl)) as [e He].
  eapply Run.at_index; [exact He|].
  eapply Run.at_index; [exact He|apply Run.append].
Qed.

Lemma validate_required_segments_appends cfg found :
  appends_only cfg found _validate_required_segments.
Proof.
  unfold _validate_required_segments; cbv zeta.
  apply Run.read_config, Run.loop; intros seg_id.
  apply Run.read_found; auto with run.
Qed.

Lemma validate_qre_requirements_appends cfg found segments :
  appends_only cfg found (_validate_qre_requirements segments).
Proof.
  unfold _validate_qre_requirements; cbv zeta.
  apply Run.read_config.
  destruct (minimalDataPrinciple cfg); cbn [negb]; [|apply Run.ret_tt].
  apply Run.seq.
  { apply Run.guarded; intros Hb.
    destruct (truthy_head_index _ Hb) as [bht0 H0].
    eapply Run.at_index; [exact H0|].
    apply Run.guarded; intros Hlen.
    destruct (leb_index _ _ Hlen) as [e He].
    eapply Run.at_index; [exact He|].
    apply Run.guarded; intros _.
    eapply Run.at_index; [exact He|].
    eapply Run.at_index; [exact He|apply Run.append]. }
  apply Run.seq; [auto with run|].
  apply Run.guarded; intros Hb.
  destruct (truthy_head_index _ Hb) as [hcr0 H0].
  eapply Run.at_index; [exact H0|].
  apply Run.guarded; intros Hlen.
  destruct (leb_index _ _ Hlen) as [e He].
  eapply Run.at_index; [exact He|].
  apply Run.guarded; intros _.
  eapply Run.at_index; [exact He|].
  eapply Run.at_index; [exact He|apply Run.append].
Qed.

(** [_detect_query_method] returns normally, appends one finding and sets
    [self.query_method]. *)
Lemma detect_query_method_run segments cfg rs found qm :
  _detect_query_method segments (mkAnalyzer cfg rs found qm)
  = inr (tt, mkAnalyzer cfg (rs ++ query_findings cfg segments) found
                        (detected_method cfg segments)).
Proof.
  unfold query_findings, detected_method, appended, _detect_query_method.
  cbv zeta.
  destruct (existsb (Py.startswith (lit "REF*D9*")) segments);
    [reflexivity|].
  destruct (existsb (Py.startswith (lit "NM1*IL*")) segments && _);
    reflexivity.
Qed.

(** ** Segment extraction *)

Lemma strip_nonempty_filter_map l :
  strip_nonempty l
  = filter (fun r => negb (Py.eqb r [])) (map Py.strip l).
Proof.
  unfold strip_nonempty.
  induction l as [|s l IH]; simpl; [reflexivity|].
  rewrite PyFacts.truthy_eqb_nil.
  destruct (negb (Py.eqb (Py.strip s) [])); simpl; now rewrite IH.
Qed.

(** Every extracted record is non-empty, already stripped and free of
    the record terminator. *)
Lemma extract_segments_records content :
  Forall (fun r => Py.truthy r = true /\ Py.strip r = r /\ ~ In TILDE r)
         (extract_segments content).
Proof.
  unfold extract_segments, strip_nonempty; cbv zeta.
  apply Forall_forall; intros r Hr.
  apply in_map_iff in Hr as (s & <- & Hs).
  apply filter_In in Hs as [Hs Ht].
  repeat split; [exact Ht|apply PyFacts.strip_idem|].
  intros Hin; apply PyFacts.strip_incl in Hin.
  pose proof (PyFacts.split_no_sep TILDE content) as Hall.
  rewrite Forall_forall in Hall; exact (Hall s Hs Hin).
Qed.

Lemma filter_truthy_extract content :
  filter Py.truthy (extract_segments content) = extract_segments content.
Proof.
  pose proof (extract_segments_records content) as H.
  induction H as [|r l [Hr _] _ IH]; simpl; [reflexivity|].
  now rewrite Hr, IH.
Qed.

Lemma extract_identifiers_run segments cfg rs found qm :
  extract_identifiers segments (mkAnalyzer cfg rs found qm)
  = inr (tt, mkAnalyzer cfg rs
               (found ++ map identifier (filter Py.truthy segments)) qm).
Proof.
  unfold extract_identifiers.
  revert found; induction segments as [|s l IH]; intros found; simpl.
  - unfold ret; now rewrite app_nil_r.
  - unfold bind at 1.
    destruct (Py.truthy s); simpl.
    + destruct (PyFacts.split_head s) as [rest Hs].
      unfold bind at 1, index; rewrite Hs; simpl.
      rewrite IH; simpl; now rewrite <- app_assoc.
    + apply IH.
Qed.

(** ** What each pass appends *)

Ltac run_step :=
  unfold bind, ret, when, and_, index, raise, get_config,
    get_segments_found, results_append;
  cbn -[Py.split Py.eqb Py.endswith Py.mem lit Py.str_of_nat].

Lemma bind_get_config {A} (k : Config -> M A) self :
  (c <- get_config ;; k c) self = k (config self) self.
Proof. reflexivity. Qed.

Lemma envelope_appended cfg found segments :
  appended (_validate_envelopes segments) cfg found
  = if validateEnvelopes cfg then
      let isa := filter (Py.startswith (lit "ISA*")) segments in
      let gs := filter (Py.startswith (lit "GS*")) segments in
      let st := filter (Py.startswith (lit "ST*")) segments in
      (if length isa =? 0 then [ISA_missing]
       else if 1 <? length isa then [ISA_multiple (length isa)] else [])
      ++ (if length gs =? 0 then [GS_missing] else [])
      ++ match st with
         | [] => [ST_missing]
         | st0 :: _ =>
             match nth_error (elements st0) 1 with
             | Some e =>
                 if Py.eqb e (lit "278") then [] else [ST_bad_code e]
             | None => []
             end
             ++ match nth_error (elements st0) 3 with
                | Some e =>
                    if Py.endswith (lit "X215") e then []
                    else [ST_bad_version e e]
                | None => []
                end
         end
    else [].
Proof.
  unfold appended, _validate_envelopes, elements; cbv zeta.
  set (isa := filter (Py.startswith (lit "ISA*")) segments).
  set (gs := filter (Py.startswith (lit "GS*")) segments).
  set (st := filter (Py.startswith (lit "ST*")) segments).
  rewrite bind_get_config; cbn [config].
  destruct (validateEnvelopes cfg); [|reflexivity].
  destruct (length isa) as [|[|n]]; destruct (length gs) as [|m];
    (destruct st as [|st0 rest]; [reflexivity|]);
    run_step;
    destruct (Py.split STAR st0) as [|e0 [|e1 [|e2 [|e3 r]]]];
    run_step; try reflexivity;
    repeat match goal with
      | |- context [Py.eqb ?e (lit "278")] => destruct (Py.eqb e (lit "278"))
      | |- context [Py.endswith ?p ?e] => destruct (Py.endswith p e)
      end;
    reflexivity.
Qed.

Lemma qre_appended cfg found segments :
  appended (_validate_qre_requirements segments) cfg found
  = if minimalDataPrinciple cfg then
      let bht := filter (Py.startswith (lit "BHT*")) segments in
      let um := filter (Py.startswith (lit "UM*")) segments in
      let hcr := filter (Py.startswith (lit "HCR*")) segments in
      match bht with
      | [] => []
      | bht0 :: _ =>
          match nth_error (elements bht0) 1 with
          | Some e =>
              if Py.eqb e (lit "0007") then [] else [BHT_bad_code e e]
          | None => []
          end
      end
      ++ (if Py.truthy um then [] else [UM_recommended])
      ++ match hcr with
         | [] => []
         | hcr0 :: _ =>
             match nth_error (elements hcr0) 1 with
             | Some e =>
                 if Py.mem e [lit "I1"; lit "A1"; lit "A2"; lit "A3";
                              lit "A4"]
                 then [] else [HCR_action e e]
             | None => []
             end
         end
    else [].
Proof.
  unfold appended, _validate_qre_requirements, elements; cbv zeta.
  set (bht := filter (Py.startswith (lit "BHT*")) segments).
  set (um := filter (Py.startswith (lit "UM*")) segments).
  set (hcr := filter (Py.startswith (lit "HCR*")) segments).
  rewrite bind_get_config; cbn [config].
  destruct (minimalDataPrinciple cfg); [|reflexivity].
  destruct bht as [|bht0 ?]; destruct um as [|um0 ?];
    destruct hcr as [|hcr0 ?]; run_step; try reflexivity;
    repeat match goal with
      | |- context [Py.split STAR ?s] =>
          destruct (Py.split STAR s) as [|? [|? ?]]; run_step
      end;
    try reflexivity;
    repeat match goal with
      | |- context [Py.eqb ?e (lit "0007")] =>
          destruct (Py.eqb e (lit "0007")); run_step
      | |- context [Py.mem ?e ?l] => destruct (Py.mem e l); run_step
      end;
    reflexivity.
Qed.

Lemma required_loop_run cfg found required rs qm :
  for_ required (fun seg_id =>
    found <- get_segments_found ;;
    when (negb (Py.mem seg_id found))
         (results_append (segment_missing seg_id)))
    (mkAnalyzer cfg rs found qm)
  = inr (tt, mkAnalyzer cfg
               (rs ++ map segment_missing
                        (filter (fun x => negb (Py.mem x found)) required))
               found qm).
Proof.
  revert rs; induction required as [|x l IH]; intros rs; simpl.
  - unfold ret; now rewrite app_nil_r.
  - unfold bind at 1 2, get_segments_found; cbn [segments_found].
    destruct (negb (Py.mem x found)); simpl.
    + rewrite IH; now rewrite <- app_assoc.
    + apply IH.
Qed.

Lemma required_appended cfg found :
  required_findings cfg found
  = map segment_missing
        (filter (fun x => negb (Py.mem x found)) (requiredSegments cfg)).
Proof.
  unfold required_findings, appended, _validate_required_segments.
  cbv zeta; rewrite bind_get_config; cbn [config].
  now rewrite required_loop_run.
Qed.

(** The envelope and minimal-data passes do not read
    [self.segments_found]. *)
Lemma envelope_appended_any cfg found segments :
  appended (_validate_envelopes segments) cfg found
  = envelope_findings cfg segments.
Proof. unfold envelope_findings; now rewrite !envelope_appended. Qed.

Lemma qre_appended_any cfg found segments :
  appended (_validate_qre_requirements segments) cfg found
  = qre_findings cfg segments.
Proof. unfold qre_findings; now rewrite !qre_appended. Qed.

(** ** A whole run *)

(** The findings of a run on [segments]: the four passes, in order. *)
Lemma passes_run path segments cfg qm0 :
  let ids := map identifier (filter Py.truthy segments) in
  (extract_identifiers segments ;;
   _validate_envelopes segments ;;
   _validate_required_segments ;;
   _validate_qre_requirements segments ;;
   _detect_query_method segments ;;
   _generate_report path) (mkAnalyzer cfg [] [] qm0)
  = (_generate_report path)
      (mkAnalyzer cfg
         (envelope_findings cfg segments ++ required_findings cfg ids
            ++ qre_findings cfg segments ++ query_findings cfg segments)
         ids (detected_method cfg segments)).
Proof.
  intros ids.
  unfold bind at 1; rewrite extract_identifiers_run; simpl app; fold ids.
  unfold bind at 1.
  rewrite (Run.run_mk cfg ids _ _ _ (validate_envelopes_appends cfg ids segments)).
  rewrite envelope_appended_any; cbn [app].
  unfold bind at 1.
  rewrite (Run.run_mk cfg ids _ _ _ (validate_required_segments_appends cfg ids)).
  fold (required_findings cfg ids).
  unfold bind at 1.
  rewrite (Run.run_mk cfg ids _ _ _
             (validate_qre_requirements_appends cfg ids segments)).
  rewrite qre_appended_any.
  unfold bind at 1.
  rewrite detect_query_method_run.
  repeat rewrite <- app_assoc.
  reflexivity.
Qed.

Lemma generate_report_run path self :
  _generate_report path self
  = inr (mkAnalysisReport path (tr3Version (config self))
           (if failOnWarnings (config self)
            then (Py.sum1 (fun r => Severity_eqb (severity r) ERROR)
                          (results self) =? 0)
                 && (Py.sum1 (fun r => Severity_eqb (severity r) WARNING)
                             (results self) =? 0)
            else Py.sum1 (fun r => Severity_eqb (severity r) ERROR)
                         (results self) =? 0)
           (Py.sum1 (fun r => Severity_eqb (severity r) ERROR) (results self))
           (Py.sum1 (fun r => Severity_eqb (severity r) WARNING)
                    (results self))
           (Py.sum1 (fun r => Severity_eqb (severity r) INFO) (results self))
           (results self) (query_method self) (segments_found self),
         self).
Proof. reflexivity. Qed.

(** A successful read: the report is generated from the findings of the
    four passes over the extracted segments. *)
Lemma analyze_file_read_ok path content self :
  let cfg := config self in
  let segments := extract_segments content in
  let ids := map identifier segments in
  analyze_file path (ReadOk content) self
  = _generate_report path
      (mkAnalyzer cfg
         (envelope_findings cfg segments ++ required_findings cfg ids
            ++ qre_findings cfg segments ++ query_findings cfg segments)
         ids (detected_method cfg segments)).
Proof.
  intros cfg segments ids.
  unfold analyze_file; cbv zeta.
  unfold bind at 1 2, set_results, set_segments_found.
  cbn [config results segments_found query_method].
  fold cfg; fold segments.
  rewrite (passes_run path segments cfg (query_method self)).
  unfold segments at 2 5; rewrite filter_truthy_extract.
  reflexivity.
Qed.

Lemma sum1_length {A} (p : A -> bool) l :
  Py.sum1 p l = length (filter p l).
Proof.
  unfold Py.sum1; induction (filter p l) as [|x t IH]; simpl; auto.
Qed.

Lemma count_severity_total l :
  count_severity ERROR l + count_severity WARNING l + count_severity INFO l
  = length l.
Proof.
  unfold count_severity; induction l as [|r l IH]; simpl; [reflexivity|].
  destruct (severity r); simpl; lia.
Qed.

(** ** Report invariants *)

(** C1. Every analysis run, on a file that was read or on a read failure,
    returns a report whose three counters are the numbers of findings of
    severity ERROR, WARNING and INFO, which add up to the number of
    findings, and whose [is_valid] is true exactly when [error_count] is 0
    and ([failOnWarnings] is off or [warning_count] is 0). *)
Theorem C1_report_counts_and_validity :
  forall path rd self,
  exists rep self',
    analyze_file path rd self = inr (rep, self')
    /\ error_count rep = count_severity ERROR (report_results rep)
    /\ warning_count rep = count_severity WARNING (report_results rep)
    /\ info_count rep = count_severity INFO (report_results rep)
    /\ error_count rep + warning_count rep + info_count rep
       = length (report_results rep)
    /\ is_valid rep
       = (error_count rep =? 0)
         && (negb (failOnWarnings (config self))
             || (warning_count rep =? 0)).
Proof.
  intros path [content|e] self.
  - rewrite analyze_file_read_ok, generate_report_run.
    eexists; eexists; split; [reflexivity|].
    cbn [error_count warning_count info_count report_results is_valid
         results config].
    rewrite !sum1_length.
    fold (count_severity ERROR). fold (count_severity WARNING).
    fold (count_severity INFO).
    repeat split; try reflexivity.
    + apply count_severity_total.
    + destruct (failOnWarnings (config self)); simpl;
        [reflexivity|now rewrite andb_true_r].
  - eexists; eexists; split; [reflexivity|].
    repeat split.
Qed.

(** ** Read failure *)

(** C7. When the input file cannot be read, analysis returns at once a
    report holding exactly one finding, a SYS-class ERROR carrying the
    failure text, with [is_valid] false, counters 1, 0, 0, no query method
    and an empty [segments_found]; the analyzer's own findings and
    identifier list are left untouched, so no validation pass has run. *)
Theorem C7_read_failure_report :
  forall path e self,
  exists rep,
    analyze_file path (ReadFailed e) self = inr (rep, self)
    /\ report_results rep = [SYS_error (lit "Failed to read file: " ++ e)]
    /\ Forall (fun f => severity f = ERROR
                        /\ Py.startswith (lit "SYS") (code f) = true
                        /\ Py.startswith (lit "ENV") (code f) = false
                        /\ Py.startswith (lit "QRE") (code f) = false)
              (report_results rep)
    /\ length (report_results rep) = 1
    /\ is_valid rep = false
    /\ error_count rep = 1
    /\ warning_count rep = 0
    /\ info_count rep = 0
    /\ report_query_method rep = None
    /\ report_segments_found rep = []
    /\ file_path rep = path
    /\ tr3_version rep = tr3Version (config self).
Proof.
  intros path e self.
  eexists; split; [reflexivity|].
  cbn [report_results is_valid error_count warning_count info_count
       report_query_method report_segments_found file_path tr3_version].
  repeat split.
  constructor; [|constructor].
  repeat split.
Qed.

(** ** Totality *)

Lemma query_findings_single cfg segments :
  exists f, query_findings cfg segments = [f].
Proof.
  unfold query_findings, appended, _detect_query_method; cbv zeta.
  destruct (existsb (Py.startswith (lit "REF*D9*")) segments);
    [eexists; reflexivity|].
  destruct (existsb (Py.startswith (lit "NM1*IL*")) segments && _);
    eexists; reflexivity.
Qed.

(** C9. A full analysis run returns a report on every input and every
    configuration and never raises: whatever segments are absent, however
    few elements a segment has, and on empty input.  Each of the four
    passes returns normally on every segment list and every analyzer
    state, and the findings of a run on a readable file are those of the
    envelope, required-segment, minimal-data and query-method passes, one
    after the other, the last of which always contributes one finding. *)
Theorem C9_analysis_is_total :
  (forall path rd self,
      exists rep self', analyze_file path rd self = inr (rep, self'))
  /\ (forall segments self,
         _validate_envelopes segments self
         = inr (tt, push self (envelope_findings (config self) segments))
         /\ _validate_required_segments self
            = inr (tt, push self (required_findings (config self)
                                    (segments_found self)))
         /\ _validate_qre_requirements segments self
            = inr (tt, push self (qre_findings (config self) segments))
         /\ exists self', _detect_query_method segments self = inr (tt, self'))
  /\ (forall path content self,
         exists rep self' f,
           analyze_file path (ReadOk content) self = inr (rep, self')
           /\ query_findings (config self) (extract_segments content) = [f]
           /\ report_results rep
              = envelope_findings (config self) (extract_segments content)
                ++ required_findings (config self)
                     (map identifier (extract_segments content))
                ++ qre_findings (config self) (extract_segments content)
                ++ [f])
  /\ (forall path self,
         exists rep self',
           analyze_file path (ReadOk []) self = inr (rep, self')
           /\ report_segments_found rep = []).
Proof.
  split; [|split; [|split]].
  - intros path [content|e] self.
    + rewrite analyze_file_read_ok, generate_report_run.
      eexists; eexists; reflexivity.
    + eexists; eexists; reflexivity.
  - intros segments self; repeat split.
    + rewrite (Run.run (config self) (segments_found self) _ self
                 (validate_envelopes_appends _ _ segments) eq_refl eq_refl).
      now rewrite envelope_appended_any.
    + now rewrite (Run.run (config self) (segments_found self) _ self
                     (validate_required_segments_appends _ _)
                     eq_refl eq_refl).
    + rewrite (Run.run (config self) (segments_found self) _ self
                 (validate_qre_requirements_appends _ _ segments)
                 eq_refl eq_refl).
      now rewrite qre_appended_any.
    + destruct self as [cfg rs found qm].
      rewrite detect_query_method_run; eexists; reflexivity.
  - intros path content self.
    destruct (query_findings_single (config self) (extract_segments content))
      as [f Hf].
    rewrite analyze_file_read_ok, generate_report_run.
    eexists; eexists; exists f; split; [reflexivity|].
    split; [exact Hf|].
    cbn [report_results results]; now rewrite Hf.
  - intros path self.
    rewrite analyze_file_read_ok, generate_report_run.
    eexists; eexists; split; reflexivity.
Qed.

(** ** Segment extraction against its specification *)

Lemma split_all_terminators n :
  Py.split TILDE (repeat TILDE n) = repeat [] (S n).
Proof.
  induction n as [|n IH]; [reflexivity|].
  cbn [repeat]; rewrite PyFacts.split_cons_sep, IH; reflexivity.
Qed.

Lemma strip_nonempty_empties n : strip_nonempty (repeat [] n) = [].
Proof.
  unfold strip_nonempty; induction n as [|n IH]; [reflexivity|exact IH].
Qed.

Lemma strip_nonempty_fixed l :
  Forall (fun r => Py.truthy r = true /\ Py.strip r = r /\ ~ In TILDE r) l ->
  strip_nonempty l = l.
Proof.
  unfold strip_nonempty.
  induction 1 as [|r l (Ht & Hs & _) _ IH]; simpl; [reflexivity|].
  rewrite Hs, Ht; simpl; now rewrite Hs, IH.
Qed.

(** C3. Segment extraction does what the specification says: the record
    list is the input split on ['~'], each piece trimmed, the empty ones
    dropped; the identifier list gives, record by record and in the same
    order, the text before the first ['*'] (the whole record when it has
    none); the loop filling [segments_found] returns normally and the
    report carries that identifier list; an input made only of
    terminators, the empty input included, yields no record and no
    identifier. *)
Theorem C3_extraction_meets_spec :
  (forall content,
      extract_segments content = fst (spec_extract content)
      /\ (forall cfg rs qm,
             extract_identifiers (extract_segments content)
               (mkAnalyzer cfg rs [] qm)
             = inr (tt, mkAnalyzer cfg rs (snd (spec_extract content)) qm))
      /\ (forall path self,
             exists rep self',
               analyze_file path (ReadOk content) self = inr (rep, self')
               /\ report_segments_found rep = snd (spec_extract content))
      /\ snd (spec_extract content)
         = map identifier (fst (spec_extract content)))
  /\ (forall n,
         extract_segments (repeat TILDE n) = []
         /\ spec_extract (repeat TILDE n) = ([], [])
         /\ (forall cfg rs qm,
                extract_identifiers (extract_segments (repeat TILDE n))
                  (mkAnalyzer cfg rs [] qm)
                = inr (tt, mkAnalyzer cfg rs [] qm))
         /\ forall path self,
              exists rep self',
                analyze_file path (ReadOk (repeat TILDE n)) self
                = inr (rep, self')
                /\ report_segments_found rep = []).
Proof.
  assert (Hrec : forall content,
             extract_segments content = fst (spec_extract content)).
  { intros content; unfold extract_segments, spec_extract.
    cbv zeta; cbn [fst]; apply strip_nonempty_filter_map. }
  assert (Hids : forall content cfg rs qm,
             extract_identifiers (extract_segments content)
               (mkAnalyzer cfg rs [] qm)
             = inr (tt, mkAnalyzer cfg rs (snd (spec_extract content)) qm)).
  { intros; rewrite extract_identifiers_run, filter_truthy_extract.
    cbn [app]; now rewrite Hrec. }
  split.
  - intros content.
    split; [apply Hrec|]; split; [apply Hids|]; split; [|reflexivity].
    intros path self.
    rewrite analyze_file_read_ok, generate_report_run.
    eexists; eexists; split; [reflexivity|].
    cbn [report_segments_found segments_found]; now rewrite Hrec.
  - intros n.
    assert (He : extract_segments (repeat TILDE n) = []).
    { unfold extract_segments; cbv zeta.
      rewrite split_all_terminators; apply strip_nonempty_empties. }
    split; [exact He|]; split; [|split].
    + unfold spec_extract; cbv zeta.
      rewrite <- strip_nonempty_filter_map.
      fold (extract_segments (repeat TILDE n)); now rewrite He.
    + intros; now rewrite He.
    + intros path self.
      rewrite analyze_file_read_ok, generate_report_run, He.
      eexists; eexists; split; reflexivity.
Qed.

(** ** Idempotence of extraction *)

(** C8. Joining the extracted records with ['~'] and extracting again
    gives the same record list and the same identifier sequence; indeed
    the whole analysis of the re-joined text returns the same report. *)
Theorem C8_extraction_idempotent :
  forall content,
    let again := Py.join TILDE (extract_segments content) in
    extract_segments again = extract_segments content
    /\ (forall cfg rs qm,
           extract_identifiers (extract_segments again)
             (mkAnalyzer cfg rs [] qm)
           = extract_identifiers (extract_segments content)
               (mkAnalyzer cfg rs [] qm))
    /\ (forall path self,
           analyze_file path (ReadOk again) self
           = analyze_file path (ReadOk content) self)
    /\ (forall path self,
           exists rep self',
             analyze_file path (ReadOk again) self = inr (rep, self')
             /\ report_segments_found rep
                = map identifier (extract_segments content)).
Proof.
  intros content again.
  assert (H : extract_segments again = extract_segments content).
  { subst again.
    pose proof (extract_segments_records content) as Hall.
    destruct (extract_segments content) as [|r l] eqn:E; [reflexivity|].
    unfold extract_segments at 1; cbv zeta.
    rewrite PyFacts.split_join.
    - now apply strip_nonempty_fixed.
    - discriminate.
    - eapply Forall_impl; [|exact Hall]; cbv beta; tauto. }
  split; [exact H|]; split; [|split].
  - intros; now rewrite H.
  - intros; now rewrite !analyze_file_read_ok, H.
  - intros path self.
    rewrite analyze_file_read_ok, generate_report_run, H.
    eexists; eexists; split; reflexivity.
Qed.

(** ** Required segments *)

Lemma names_segment_missing seg_id x :
  names seg_id (segment_missing x) = Py.eqb x seg_id.
Proof. reflexivity. Qed.

Lemma count_named_missing seg_id found required :
  length (filter (names seg_id)
            (map segment_missing
               (filter (fun x => negb (Py.mem x found)) required)))
  = if Py.mem seg_id found then 0
    else length (filter (fun x => Py.eqb x seg_id) required).
Proof.
  induction required as [|x l IH]; cbn [filter map length];
    [now destruct (Py.mem _ _)|].
  destruct (Py.eqb x seg_id) eqn:E.
  - apply PyFacts.eqb_eq in E; subst x.
    destruct (Py.mem seg_id found) eqn:Em; cbn [negb filter map length].
    + exact IH.
    + rewrite names_segment_missing, PyFacts.eqb_refl.
      cbn [length]; now rewrite IH.
  - destruct (negb (Py.mem x found)); cbn [filter map length];
      [rewrite names_segment_missing, E|]; exact IH.
Qed.

Lemma count_once seg_id (required : list str) :
  NoDup required -> In seg_id required ->
  length (filter (fun x => Py.eqb x seg_id) required) = 1.
Proof.
  induction 1 as [|x l Hx Hl IH]; intros Hin; [destruct Hin|].
  simpl; destruct (Py.eqb x seg_id) eqn:E.
  - apply PyFacts.eqb_eq in E; subst x; simpl; f_equal.
    assert (Hnone : forall y, In y l -> Py.eqb y seg_id = false).
    { intros y Hy; apply PyFacts.eqb_neq; intros ->; contradiction. }
    clear -Hnone; induction l as [|y l IH]; [reflexivity|].
    simpl; rewrite (Hnone y (or_introl eq_refl)).
    apply IH; intros z Hz; apply Hnone; now right.
  - destruct Hin as [->|Hin]; [now rewrite PyFacts.eqb_refl in E|auto].
Qed.

(** C6. The required-segment pass returns normally and appends, in the
    configured order, one ERROR (code QRE001, naming the identifier in its
    message and in its segment field) for each entry of
    [requiredSegments] that is not in the identifier list, and nothing
    else.  Hence no finding names an identifier that is present; the
    findings naming an absent identifier are as many as its entries in the
    required list, exactly one when the list has no repetition; and an
    empty required list gives no finding. *)
Theorem C6_required_segment_pass :
  (forall tr ve md fw found,
      required_findings (mkConfig tr ve [] md fw) found = [])
  /\
  forall self,
    let required := requiredSegments (config self) in
    let found := segments_found self in
    let new := required_findings (config self) found in
    _validate_required_segments self = inr (tt, push self new)
    /\ new = map segment_missing
                 (filter (fun x => negb (Py.mem x found)) required)
    /\ Forall (fun f => severity f = ERROR /\ code f = lit "QRE001") new
    /\ (forall seg_id,
           length (filter (names seg_id) new)
           = if Py.mem seg_id found then 0
             else length (filter (fun x => Py.eqb x seg_id) required))
    /\ (forall seg_id,
           NoDup required -> In seg_id required ->
           Py.mem seg_id found = false ->
           filter (names seg_id) new = [segment_missing seg_id]).
Proof.
  split; [intros; now rewrite required_appended|].
  intros self required found new.
  assert (Hnew : new = map segment_missing
                         (filter (fun x => negb (Py.mem x found)) required))
    by apply required_appended.
  assert (Hcount : forall seg_id,
             length (filter (names seg_id) new)
             = if Py.mem seg_id found then 0
               else length (filter (fun x => Py.eqb x seg_id) required)).
  { intros; rewrite Hnew; apply count_named_missing. }
  split; [|split; [exact Hnew|split; [|split; [exact Hcount|]]]].
  - exact (Run.run (config self) found _ self
             (validate_required_segments_appends _ _) eq_refl eq_refl).
  - rewrite Hnew; apply Forall_forall; intros f Hf.
    apply in_map_iff in Hf as (x & <- & _); now split.
  - intros seg_id Hnd Hin Hmem.
    specialize (Hcount seg_id); rewrite Hmem, (count_once _ _ Hnd Hin) in Hcount.
    destruct (filter (names seg_id) new) as [|f [|g t]] eqn:E;
      try discriminate.
    assert (Hf : In f (filter (names seg_id) new))
      by (rewrite E; now left).
    apply filter_In in Hf as [Hf Hn].
    rewrite Hnew in Hf; apply in_map_iff in Hf as (x & <- & _).
    rewrite names_segment_missing in Hn.
    apply PyFacts.eqb_eq in Hn; now subst.
Qed.

(** C6 on the specification's example: ISA, GS, ST and BHT required, BHT
    absent from the input. *)
Lemma C6_required_segment_witness :
  let cfg := mkConfig (lit "005010X215") true
               [lit "ISA"; lit "GS"; lit "ST"; lit "BHT"] true false in
  let self := mkAnalyzer cfg [] [lit "ISA"; lit "GS"; lit "ST"] None in
  filter (names (lit "BHT"))
         (required_findings cfg (segments_found self))
  = [segment_missing (lit "BHT")].
Proof.
  intros cfg self.
  refine (proj2 (proj2 (proj2 (proj2
            (proj2 C6_required_segment_pass self)))) (lit "BHT") _ _ _).
  - repeat constructor; simpl; intuition discriminate.
  - simpl; tauto.
  - reflexivity.
Defined.

(** ** Prefix selection in terms of elements

    The passes select segments with [startswith('ID*')].  Such a segment
    is one whose leading elements are the given ones and that has at
    least one element more. *)

Lemma join_app sep es rest :
  es <> [] -> rest <> [] ->
  Py.join sep (es ++ rest) = Py.join sep es ++ sep :: Py.join sep rest.
Proof.
  intros Hes Hrest; induction es as [|e es IH]; [congruence|].
  destruct es as [|e' es].
  - cbn [app]; now rewrite PyFacts.join_cons.
  - change ((e :: e' :: es) ++ rest) with (e :: (e' :: es) ++ rest).
    rewrite !PyFacts.join_cons by discriminate.
    rewrite IH by discriminate; now rewrite <- app_assoc.
Qed.

Lemma split_join_app sep es r :
  es <> [] -> Forall (fun e => ~ In sep e) es ->
  Py.split sep (Py.join sep es ++ sep :: r) = es ++ Py.split sep r.
Proof.
  intros Hes Hall; induction Hall as [|e es He Hall IH]; [congruence|].
  destruct es as [|e' es].
  - cbn [Py.join app]; now apply PyFacts.split_app_sep.
  - rewrite PyFacts.join_cons by discriminate.
    rewrite <- app_assoc; cbn [app].
    rewrite PyFacts.split_app_sep by assumption.
    now rewrite IH by discriminate.
Qed.

Lemma list_eqb_eq a b : list_eqb a b = true <-> a = b.
Proof.
  revert b; induction a as [|x a IH]; intros [|y b]; simpl;
    try (split; [discriminate|congruence]); [tauto|].
  rewrite andb_true_iff, PyFacts.eqb_eq, IH.
  split; [intros [-> ->]; reflexivity|intros H; injection H; auto].
Qed.

Lemma has_fields_iff es s :
  has_fields es s = true
  <-> exists rest, rest <> [] /\ elements s = es ++ rest.
Proof.
  unfold has_fields; rewrite andb_true_iff, Nat.ltb_lt, list_eqb_eq.
  split.
  - intros [Hlen Hfirst].
    exists (skipn (length es) (elements s)); split.
    + intros Hnil; apply (f_equal (@length str)) in Hnil.
      rewrite length_skipn in Hnil; simpl in Hnil; lia.
    + rewrite <- Hfirst at 1; symmetry; apply firstn_skipn.
  - intros (rest & Hrest & ->); split.
    + rewrite length_app; destruct rest; [congruence|simpl; lia].
    + rewrite firstn_app, Nat.sub_diag, firstn_all; simpl.
      apply app_nil_r.
Qed.

Lemma startswith_fields es s :
  es <> [] -> Forall (fun e => ~ In STAR e) es ->
  Py.startswith (Py.join STAR es ++ [STAR]) s = has_fields es s.
Proof.
  intros Hes Hall; apply eq_iff_eq_true.
  rewrite PyFacts.startswith_app, has_fields_iff; split.
  - intros [r ->]; exists (Py.split STAR r); split.
    + apply PyFacts.split_not_nil.
    + unfold elements; rewrite <- app_assoc; cbn [app].
      now apply split_join_app.
  - intros (rest & Hrest & Hs).
    exists (Py.join STAR rest).
    rewrite <- (PyFacts.join_split STAR s); fold (elements s).
    rewrite Hs, join_app by assumption.
    now rewrite <- app_assoc.
Qed.

Ltac star_free :=
  repeat constructor; cbv; intros H;
  repeat (destruct H as [H|H]; [discriminate H|]); exact H.

(** The nine prefixes of the source. *)
Lemma prefix_selects s :
  Py.startswith (lit "ISA*") s = has_fields [lit "ISA"] s
  /\ Py.startswith (lit "GS*") s = has_fields [lit "GS"] s
  /\ Py.startswith (lit "ST*") s = has_fields [lit "ST"] s
  /\ Py.startswith (lit "BHT*") s = has_fields [lit "BHT"] s
  /\ Py.startswith (lit "UM*") s = has_fields [lit "UM"] s
  /\ Py.startswith (lit "HCR*") s = has_fields [lit "HCR"] s
  /\ Py.startswith (lit "DMG*") s = has_fields [lit "DMG"] s
  /\ Py.startswith (lit "REF*D9*") s = has_fields [lit "REF"; lit "D9"] s
  /\ Py.startswith (lit "NM1*IL*") s = has_fields [lit "NM1"; lit "IL"] s.
Proof.
  repeat split;
    match goal with
    | |- _ = has_fields ?es s =>
        apply (startswith_fields es s); [discriminate|star_free]
    end.
Qed.

Lemma filter_ext_eq {A} (p q : A -> bool) l :
  (forall x, p x = q x) -> filter p l = filter q l.
Proof. intros H; apply filter_ext; exact H. Qed.

Lemma has_fields_identifier seg_id s :
  has_fields [seg_id] s = true
  <-> identifier s = seg_id /\ 2 <= length (elements s).
Proof.
  rewrite has_fields_iff.
  destruct (PyFacts.split_head s) as [tl Hs]; unfold elements; rewrite Hs.
  split.
  - intros (rest & Hrest & H); injection H as -> ->.
    split; [reflexivity|destruct rest; [congruence|simpl; lia]].
  - intros [-> Hlen]; exists tl; split; [|reflexivity].
    intros ->; simpl in Hlen; lia.
Qed.

Lemma with_code_app c l1 l2 :
  with_code c (l1 ++ l2) = with_code c l1 ++ with_code c l2.
Proof. apply filter_app. Qed.

(** The findings of the envelope pass, with the selections read as
    element tests. *)
Lemma envelope_findings_fields cfg segments :
  validateEnvelopes cfg = true ->
  let n := length (filter (has_fields [lit "ISA"]) segments) in
  envelope_findings cfg segments
  = (if n =? 0 then [ISA_missing]
     else if 1 <? n then [ISA_multiple n] else [])
    ++ (if length (filter (has_fields [lit "GS"]) segments) =? 0
        then [GS_missing] else [])
    ++ match filter (has_fields [lit "ST"]) segments with
       | [] => [ST_missing]
       | st0 :: _ => ST_code_check st0 ++ ST_version_check st0
       end.
Proof.
  intros Hv n; unfold envelope_findings.
  rewrite envelope_appended, Hv; cbv zeta.
  rewrite (filter_ext_eq (Py.startswith (lit "ISA*"))
             (has_fields [lit "ISA"]) segments)
    by (intros x; apply (prefix_selects x)).
  rewrite (filter_ext_eq (Py.startswith (lit "GS*"))
             (has_fields [lit "GS"]) segments)
    by (intros x; apply (prefix_selects x)).
  rewrite (filter_ext_eq (Py.startswith (lit "ST*"))
             (has_fields [lit "ST"]) segments)
    by (intros x; apply (prefix_selects x)).
  reflexivity.
Qed.

Ltac by_cases :=
  cbn [Nat.eqb Nat.ltb Nat.leb];
  repeat match goal with
    | |- context [if ?c then _ else _] => destruct c
    | |- context [match nth_error ?l ?i with _ => _ end] =>
        destruct (nth_error l i)
    end;
  reflexivity.

Lemma ST_checks_codes st0 :
  with_code "ENV001" (ST_code_check st0 ++ ST_version_check st0) = []
  /\ with_code "ENV002" (ST_code_check st0 ++ ST_version_check st0) = []
  /\ with_code "ENV004" (ST_code_check st0 ++ ST_version_check st0) = []
  /\ with_code "ENV005" (ST_code_check st0 ++ ST_version_check st0)
     = ST_code_check st0
  /\ with_code "ENV006" (ST_code_check st0 ++ ST_version_check st0)
     = ST_version_check st0.
Proof.
  unfold ST_code_check, ST_version_check; repeat split; by_cases.
Qed.

(** ** Envelope pass: interchange headers *)

(** C4 as stated does not hold: the one-record input [ISA] has exactly
    one segment whose identifier is ISA, and the envelope pass still
    reports the interchange header as missing. *)
Lemma C4_ISA_by_identifier_fails :
  let cfg := mkConfig (lit "005010X215") true [] true false in
  extract_segments (lit "ISA~") = [lit "ISA"]
  /\ length (with_identifier (lit "ISA") [lit "ISA"]) = 1
  /\ with_code "ENV001" (envelope_findings cfg [lit "ISA"]) = [ISA_missing]
  /\ ~ ISA_rule_by_identifier cfg [lit "ISA"].
Proof.
  intros cfg; repeat split.
  intros (_ & _ & H); destruct (H eq_refl) as [H1 _]; discriminate H1.
Qed.

(** C4, amended.  With envelope validation enabled, let [n] be the number
    of segments that begin with [ISA*], that is, whose identifier is ISA
    and which have at least one more element.  If [n] is 0 the pass emits
    exactly one ENV001 ERROR (missing interchange header) and no ENV002
    WARNING; if [n] exceeds 1 it emits exactly one ENV002 WARNING carrying
    [n] and no ENV001 ERROR; if [n] is 1 it emits neither. *)
Theorem C4_ISA_count :
  forall cfg segments,
    validateEnvelopes cfg = true ->
    let n := length (filter (has_fields [lit "ISA"]) segments) in
    let new := envelope_findings cfg segments in
    (forall self, config self = cfg ->
        _validate_envelopes segments self = inr (tt, push self new))
    /\ with_code "ENV001" new = (if n =? 0 then [ISA_missing] else [])
    /\ with_code "ENV002" new = (if 1 <? n then [ISA_multiple n] else [])
    /\ severity ISA_missing = ERROR
    /\ severity (ISA_multiple n) = WARNING
    /\ message (ISA_multiple n)
       = lit "Multiple ISA segments found (" ++ Py.str_of_nat n ++ lit ")"
    /\ (forall s, has_fields [lit "ISA"] s = Py.startswith (lit "ISA*") s)
    /\ (forall s, has_fields [lit "ISA"] s = true
                  <-> identifier s = lit "ISA" /\ 2 <= length (elements s)).
Proof.
  intros cfg segments Hv n new.
  split; [|split; [|split; [|split; [reflexivity|split; [reflexivity|
    split; [reflexivity|split]]]]]].
  - intros self <-.
    rewrite (Run.run (config self) (segments_found self) _ self
               (validate_envelopes_appends _ _ segments) eq_refl eq_refl).
    now rewrite envelope_appended_any.
  - subst new; rewrite (envelope_findings_fields _ _ Hv); cbv zeta; fold n.
    rewrite !with_code_app.
    destruct (filter (has_fields [lit "ST"]) segments) as [|st0 rest].
    + destruct n as [|[|k]]; by_cases.
    + rewrite (proj1 (ST_checks_codes st0)).
      destruct n as [|[|k]]; by_cases.
  - subst new; rewrite (envelope_findings_fields _ _ Hv); cbv zeta; fold n.
    rewrite !with_code_app.
    destruct (filter (has_fields [lit "ST"]) segments) as [|st0 rest].
    + destruct n as [|[|k]]; by_cases.
    + rewrite (proj1 (proj2 (ST_checks_codes st0))).
      destruct n as [|[|k]]; by_cases.
  - intros s; symmetry; apply (prefix_selects s).
  - intros s; apply has_fields_identifier.
Qed.

(** C4 amended, on two interchange headers. *)
Lemma C4_ISA_count_witness :
  let cfg := mkConfig (lit "005010X215") true [] true false in
  let segments := [lit "ISA*00*A"; lit "GS*HI"; lit "ISA*00*B"] in
  validateEnvelopes cfg = true
  /\ with_code "ENV001" (envelope_findings cfg segments) = []
  /\ with_code "ENV002" (envelope_findings cfg segments) = [ISA_multiple 2].
Proof.
  intros cfg segments.
  pose proof (C4_ISA_count cfg segments eq_refl) as (_ & H1 & H2 & _).
  split; [reflexivity|split; [exact H1|exact H2]].
Defined.

(** ** Envelope pass: the transaction set header *)

(** C5 as stated does not hold: in the input [ST~ST*837~] the first
    segment whose identifier is ST is the bare record [ST], which has no
    second element, yet the pass reports the transaction code of the
    second record. *)
Lemma C5_first_ST_by_identifier_fails :
  let cfg := mkConfig (lit "005010X215") true [] true false in
  let segments := [lit "ST"; lit "ST*837"] in
  extract_segments (lit "ST~ST*837~") = segments
  /\ with_identifier (lit "ST") segments = segments
  /\ ST_code_check (lit "ST") = []
  /\ with_code "ENV005" (envelope_findings cfg segments)
     = [ST_bad_code (lit "837")]
  /\ ~ ST_rule_by_identifier cfg segments.
Proof.
  intros cfg segments; repeat split.
  intros H; destruct (H (lit "ST") [lit "ST*837"] eq_refl) as [H1 _].
  discriminate H1.
Qed.

(** C5, amended.  With envelope validation enabled and at least one
    segment beginning with [ST*] (identifier ST and at least one more
    element), only the first such segment is inspected and no missing-ST
    ERROR is emitted.  That segment has a second element: if it differs
    from ['278'] exactly one ENV005 ERROR naming it is emitted, none if
    it equals ['278'].  If it has a fourth element that does not end with
    ['X215'], exactly one ENV006 WARNING naming it is emitted; no ENV006
    otherwise, in particular when there is no fourth element. *)
Theorem C5_first_ST_inspected :
  forall cfg segments st0 rest,
    validateEnvelopes cfg = true ->
    filter (has_fields [lit "ST"]) segments = st0 :: rest ->
    let new := envelope_findings cfg segments in
    (forall self, config self = cfg ->
        _validate_envelopes segments self = inr (tt, push self new))
    /\ with_code "ENV004" new = []
    /\ (exists e1,
           nth_error (elements st0) 1 = Some e1
           /\ with_code "ENV005" new
              = if Py.eqb e1 (lit "278") then [] else [ST_bad_code e1])
    /\ with_code "ENV006" new
       = match nth_error (elements st0) 3 with
         | Some e3 =>
             if Py.endswith (lit "X215") e3 then []
             else [ST_bad_version e3 e3]
         | None => []
         end
    /\ (forall e, severity (ST_bad_code e) = ERROR
                  /\ message (ST_bad_code e)
                     = lit "Invalid transaction code: expected '278', found '"
                       ++ e ++ lit "'")
    /\ (forall e, severity (ST_bad_version e e) = WARNING
                  /\ message (ST_bad_version e e)
                     = lit "Implementation guide version '" ++ e
                       ++ lit "' may not be 005010X215")
    /\ (forall s, has_fields [lit "ST"] s = Py.startswith (lit "ST*") s)
    /\ (forall s, has_fields [lit "ST"] s = true
                  <-> identifier s = lit "ST" /\ 2 <= length (elements s)).
Proof.
  intros cfg segments st0 rest Hv Hst new.
  assert (Hnew : forall c,
             with_code c new
             = with_code c
                 (if length (filter (has_fields [lit "ISA"]) segments) =? 0
                  then [ISA_missing]
                  else if 1 <? length (filter (has_fields [lit "ISA"])
                                         segments)
                       then [ISA_multiple
                               (length (filter (has_fields [lit "ISA"])
                                          segments))]
                       else [])
               ++ with_code c
                    (if length (filter (has_fields [lit "GS"]) segments) =? 0
                     then [GS_missing] else [])
               ++ with_code c (ST_code_check st0 ++ ST_version_check st0)).
  { intros c; subst new.
    rewrite (envelope_findings_fields _ _ Hv); cbv zeta.
    now rewrite Hst, !with_code_app. }
  destruct (ST_checks_codes st0) as (_ & _ & H4 & H5 & H6).
  split; [|split; [|split; [|split; [|split; [|split; [|split]]]]]].
  - intros self <-.
    rewrite (Run.run (config self) (segments_found self) _ self
               (validate_envelopes_appends _ _ segments) eq_refl eq_refl).
    now rewrite envelope_appended_any.
  - rewrite Hnew, H4; by_cases.
  - assert (Hin : In st0 (filter (has_fields [lit "ST"]) segments))
      by (rewrite Hst; now left).
    apply filter_In in Hin as [_ Hf].
    apply has_fields_iff in Hf as (tl & Htl & Hel).
    destruct tl as [|e1 tl]; [congruence|].
    exists e1; split; [now rewrite Hel|].
    rewrite Hnew, H5; unfold ST_code_check; rewrite Hel; cbn [app nth_error].
    transitivity ([] ++ [] ++ (if Py.eqb e1 (lit "278") then []
                               else [ST_bad_code e1]));
      [|reflexivity].
    f_equal; [by_cases|f_equal; by_cases].
  - rewrite Hnew, H6.
    transitivity ([] ++ [] ++ ST_version_check st0); [|reflexivity].
    f_equal; [by_cases|f_equal; by_cases].
  - intros e; split; reflexivity.
  - intros e; split; reflexivity.
  - intros s; symmetry; apply (prefix_selects s).
  - intros s; apply has_fields_identifier.
Qed.

(** C5 amended, on the specification's example: transaction code 837. *)
Lemma C5_first_ST_witness :
  let cfg := mkConfig (lit "005010X215") true [] true false in
  let segments := [lit "ISA*00"; lit "ST*837*0001"; lit "ST*278*0002"] in
  validateEnvelopes cfg = true
  /\ filter (has_fields [lit "ST"]) segments
     = [lit "ST*837*0001"; lit "ST*278*0002"]
  /\ with_code "ENV004" (envelope_findings cfg segments) = []
  /\ with_code "ENV006" (envelope_findings cfg segments) = [].
Proof.
  intros cfg segments.
  pose proof (C5_first_ST_inspected cfg segments (lit "ST*837*0001")
                [lit "ST*278*0002"] eq_refl eq_refl) as (_ & H4 & _ & H6 & _).
  split; [reflexivity|split; [reflexivity|split; [exact H4|exact H6]]].
Defined.

(** ** Query-method inference *)

Lemma existsb_ext_eq {A} (p q : A -> bool) l :
  (forall x, p x = q x) -> existsb p l = existsb q l.
Proof.
  intros H; induction l as [|x l IH]; simpl; [reflexivity|].
  now rewrite H, IH.
Qed.

Lemma has_fields_two a b s :
  has_fields [a; b] s = true
  <-> identifier s = a /\ element_is 1 b s = true
      /\ 3 <= length (elements s).
Proof.
  rewrite has_fields_iff; unfold element_is.
  destruct (PyFacts.split_head s) as [tl Hs]; unfold elements; rewrite Hs.
  split.
  - intros (rest & Hrest & H); injection H as -> ->.
    cbn [nth_error app]; rewrite PyFacts.eqb_refl.
    repeat split; destruct rest; [congruence|simpl; lia].
  - intros (-> & He & Hlen).
    destruct tl as [|y [|z r]]; simpl in Hlen; try lia.
    cbn [nth_error] in He; apply PyFacts.eqb_eq in He; subst y.
    exists (z :: r); split; [discriminate|reflexivity].
Qed.

(** The decision of [_detect_query_method], on element tests. *)
Lemma detect_decision cfg segments :
  let has_ref_auth := existsb (has_fields [lit "REF"; lit "D9"]) segments in
  let has_member_id := existsb (has_fields [lit "NM1"; lit "IL"]) segments in
  let has_dob := existsb (has_fields [lit "DMG"]) segments in
  (detected_method cfg segments, query_findings cfg segments)
  = if has_ref_auth
    then (Some (lit "ByAuthorizationNumber"), [by_authorization])
    else if has_member_id && has_dob
    then (Some (lit "ByMemberDemographics"), [by_demographics])
    else (Some (lit "Unknown"), [method_unknown]).
Proof.
  cbv zeta.
  rewrite <- (existsb_ext_eq (Py.startswith (lit "REF*D9*"))
                (has_fields [lit "REF"; lit "D9"]) segments)
    by (intros x; apply (prefix_selects x)).
  rewrite <- (existsb_ext_eq (Py.startswith (lit "NM1*IL*"))
                (has_fields [lit "NM1"; lit "IL"]) segments)
    by (intros x; apply (prefix_selects x)).
  rewrite <- (existsb_ext_eq (Py.startswith (lit "DMG*"))
                (has_fields [lit "DMG"]) segments)
    by (intros x; apply (prefix_selects x)).
  unfold detected_method, query_findings, appended, _detect_query_method.
  cbv zeta.
  destruct (existsb (Py.startswith (lit "REF*D9*")) segments);
    [reflexivity|].
  destruct (existsb (Py.startswith (lit "NM1*IL*")) segments && _);
    reflexivity.
Qed.

(** C2 as stated does not hold: the record [REF*D9] has identifier REF
    and second element D9, so the specification's first predicate is
    true, but the source looks for the prefix [REF*D9*] and resolves the
    query method to Unknown with its WARNING. *)
Lemma C2_query_method_by_identifier_fails :
  let cfg := mkConfig (lit "005010X215") true [] true false in
  let segments := [lit "REF*D9"] in
  extract_segments (lit "REF*D9~") = segments
  /\ spec_has_ref_auth segments = true
  /\ fst (spec_query_method segments) = lit "ByAuthorizationNumber"
  /\ detected_method cfg segments = Some (lit "Unknown")
  /\ query_findings cfg segments = [method_unknown]
  /\ ~ query_rule_by_identifier cfg segments.
Proof.
  intros cfg segments; repeat split.
  intros [H _]; discriminate H.
Qed.

(** C2, amended.  Query-method inference returns normally on every
    segment list and decides in priority order, first match winning: if
    some segment begins with [REF*D9*] (identifier REF, second element
    D9, and at least a third element) the method is
    ByAuthorizationNumber with one INFO finding, whatever NM1 and DMG
    segments exist; otherwise, if some segment begins with [NM1*IL*] and
    some segment begins with [DMG*] (each with at least one element
    after the prefix), it is ByMemberDemographics with one INFO finding;
    otherwise it is Unknown with one WARNING finding.  The report of a
    run carries that method. *)
Theorem C2_query_method_inference :
  forall cfg segments,
    let has_ref_auth :=
      existsb (has_fields [lit "REF"; lit "D9"]) segments in
    let has_member_id :=
      existsb (has_fields [lit "NM1"; lit "IL"]) segments in
    let has_dob := existsb (has_fields [lit "DMG"]) segments in
    let decision :=
      if has_ref_auth
      then (lit "ByAuthorizationNumber", by_authorization)
      else if has_member_id && has_dob
      then (lit "ByMemberDemographics", by_demographics)
      else (lit "Unknown", method_unknown) in
    (forall rs found qm,
        _detect_query_method segments (mkAnalyzer cfg rs found qm)
        = inr (tt, mkAnalyzer cfg (rs ++ [snd decision]) found
                              (Some (fst decision))))
    /\ (forall path content self,
           config self = cfg -> extract_segments content = segments ->
           exists rep self',
             analyze_file path (ReadOk content) self = inr (rep, self')
             /\ report_query_method rep = Some (fst decision)
             /\ last (report_results rep) ISA_missing = snd decision)
    /\ severity by_authorization = INFO
    /\ severity by_demographics = INFO
    /\ severity method_unknown = WARNING
    /\ (forall s,
           (has_fields [lit "REF"; lit "D9"] s
            = Py.startswith (lit "REF*D9*") s)
           /\ (has_fields [lit "NM1"; lit "IL"] s
               = Py.startswith (lit "NM1*IL*") s)
           /\ (has_fields [lit "DMG"] s = Py.startswith (lit "DMG*") s))
    /\ (forall a b s,
           has_fields [a; b] s = true
           <-> identifier s = a /\ element_is 1 b s = true
               /\ 3 <= length (elements s))
    /\ (forall a s,
           has_fields [a] s = true
           <-> identifier s = a /\ 2 <= length (elements s)).
Proof.
  intros cfg segments has_ref_auth has_member_id has_dob decision.
  pose proof (detect_decision cfg segments) as Hd; cbv zeta in Hd.
  fold has_ref_auth has_member_id has_dob in Hd.
  assert (Hm : detected_method cfg segments = Some (fst decision)
               /\ query_findings cfg segments = [snd decision]).
  { subst decision; destruct has_ref_auth;
      [|destruct (has_member_id && has_dob)];
      injection Hd as -> ->; split; reflexivity. }
  destruct Hm as [Hm Hq].
  split; [|split; [|split; [reflexivity|split; [reflexivity|
    split; [reflexivity|split; [|split]]]]]].
  - intros; now rewrite detect_query_method_run, Hm, Hq.
  - intros path content self <- <-.
    rewrite analyze_file_read_ok, generate_report_run.
    eexists; eexists; split; [reflexivity|].
    cbn [report_query_method report_results query_method results].
    split; [exact Hm|].
    rewrite Hq, !app_assoc; apply last_last.
  - intros s; repeat split; symmetry; apply (prefix_selects s).
  - apply has_fields_two.
  - apply has_fields_identifier.
Qed.

(** C2 amended, on the specification's example: REF*D9 wins over member
    demographics. *)
Lemma C2_query_method_witness :
  let cfg := mkConfig (lit "005010X215") true [] true false in
  let content :=
    lit "NM1*IL*DOE*JOHN~DMG*D8*19800101~REF*D9*AUTH123~" in
  exists rep self',
    analyze_file (lit "in.edi") (ReadOk content) (init cfg) = inr (rep, self')
    /\ report_query_method rep = Some (lit "ByAuthorizationNumber").
Proof.
  intros cfg content.
  destruct (proj1 (proj2 (C2_query_method_inference cfg
                            (extract_segments content)))
              (lit "in.edi") content (init cfg) eq_refl eq_refl)
    as (rep & self' & Hrun & Hqm & _).
  exists rep, self'; split; [exact Hrun|exact Hqm].
Defined.

(** ** Records without a field delimiter *)

Lemma has_delimiter_In s : has_delimiter s = true <-> In STAR s.
Proof.
  unfold has_delimiter; rewrite existsb_exists; split.
  - intros (x & Hx & E); apply N.eqb_eq in E; now subst.
  - intros H; exists STAR; split; [exact H|apply N.eqb_refl].
Qed.

Lemma prefix_needs_star p s :
  In STAR p -> Py.startswith p s = true -> has_delimiter s = true.
Proof.
  intros Hp Hs; apply PyFacts.startswith_app in Hs as [r ->].
  apply has_delimiter_In, in_or_app; now left.
Qed.

Lemma bare_not_selected p s :
  In STAR p -> ~ In STAR s -> Py.startswith p s = false.
Proof.
  intros Hp Hs; destruct (Py.startswith p s) eqn:E; [|reflexivity].
  apply (prefix_needs_star _ _ Hp), has_delimiter_In in E; contradiction.
Qed.

Lemma filter_filter_implied {A} (p q : A -> bool) l :
  (forall x, p x = true -> q x = true) ->
  filter p (filter q l) = filter p l.
Proof.
  intros H; induction l as [|x l IH]; simpl; [reflexivity|].
  destruct (q x) eqn:Eq; simpl.
  - now rewrite IH.
  - destruct (p x) eqn:Ep; [|exact IH].
    apply H in Ep; congruence.
Qed.

Lemma existsb_filter_implied {A} (p q : A -> bool) l :
  (forall x, p x = true -> q x = true) ->
  existsb p (filter q l) = existsb p l.
Proof.
  intros H; induction l as [|x l IH]; simpl; [reflexivity|].
  destruct (q x) eqn:Eq; simpl.
  - now rewrite IH.
  - destruct (p x) eqn:Ep; [|exact IH].
    apply H in Ep; congruence.
Qed.

Ltac star_in := cbv; tauto.

(** The three prefix-selecting passes do not see records that have no
    field delimiter. *)
Lemma passes_skip_bare cfg segments :
  envelope_findings cfg (filter has_delimiter segments)
  = envelope_findings cfg segments
  /\ qre_findings cfg (filter has_delimiter segments)
     = qre_findings cfg segments
  /\ query_findings cfg (filter has_delimiter segments)
     = query_findings cfg segments
  /\ detected_method cfg (filter has_delimiter segments)
     = detected_method cfg segments.
Proof.
  repeat split.
  - unfold envelope_findings; rewrite !envelope_appended; cbv zeta.
    now rewrite !filter_filter_implied
      by (intros x; apply prefix_needs_star; star_in).
  - unfold qre_findings; rewrite !qre_appended; cbv zeta.
    now rewrite !filter_filter_implied
      by (intros x; apply prefix_needs_star; star_in).
  - unfold query_findings, appended, _detect_query_method; cbv zeta.
    now rewrite !existsb_filter_implied
      by (intros x; apply prefix_needs_star; star_in).
  - unfold detected_method, _detect_query_method; cbv zeta.
    now rewrite !existsb_filter_implied
      by (intros x; apply prefix_needs_star; star_in).
Qed.

Lemma none_selected p seg_id segments :
  (forall s, Py.startswith p s = has_fields [seg_id] s) ->
  In STAR p ->
  (forall s, In s segments -> identifier s = seg_id -> ~ In STAR s) ->
  filter (Py.startswith p) segments = [].
Proof.
  intros Hp Hstar Hbare.
  destruct (filter (Py.startswith p) segments) as [|x l] eqn:E;
    [reflexivity|exfalso].
  assert (Hx : In x (filter (Py.startswith p) segments))
    by (rewrite E; now left).
  apply filter_In in Hx as [Hin Hsel].
  pose proof (prefix_needs_star _ _ Hstar Hsel) as Hd.
  rewrite Hp in Hsel; apply has_fields_identifier in Hsel as [Hid _].
  apply has_delimiter_In in Hd; exact (Hbare x Hin Hid Hd).
Qed.

Lemma mem_In x l : Py.mem x l = true <-> In x l.
Proof.
  unfold Py.mem; rewrite existsb_exists; split.
  - intros (y & Hy & E); apply PyFacts.eqb_eq in E; now subst.
  - intros H; exists x; split; [exact H|apply PyFacts.eqb_refl].
Qed.

Lemma short_not_selected es s :
  length (elements s) <= length es -> has_fields es s = false.
Proof.
  intros Hlen; unfold has_fields.
  apply Nat.ltb_ge in Hlen; now rewrite Hlen.
Qed.

(** C10. A record without a field delimiter is its own identifier and its
    only element.  When extracted it is entered in [segments_found], so
    the required-segment pass raises no finding for it; but none of the
    prefixes [ISA*], [GS*], [ST*], [BHT*], [UM*], [HCR*], [DMG*],
    [REF*D9*], [NM1*IL*] selects it, and the envelope, minimal-data and
    query-method passes give the same findings and the same query method
    as if such records were not there.  Likewise a segment of at most two
    elements, such as [REF*D9], is not selected by [REF*D9*] or
    [NM1*IL*], although its identifier is recorded.  So a file whose UM
    records are all bare still receives the UM-recommended WARNING, and
    one whose ISA records are all bare still receives the missing-ISA
    ERROR. *)
Theorem C10_bare_records :
  (forall r,
      ~ In STAR r ->
      identifier r = r /\ elements r = [r]
      /\ Py.startswith (lit "ISA*") r = false
      /\ Py.startswith (lit "GS*") r = false
      /\ Py.startswith (lit "ST*") r = false
      /\ Py.startswith (lit "BHT*") r = false
      /\ Py.startswith (lit "UM*") r = false
      /\ Py.startswith (lit "HCR*") r = false
      /\ Py.startswith (lit "DMG*") r = false
      /\ Py.startswith (lit "REF*D9*") r = false
      /\ Py.startswith (lit "NM1*IL*") r = false)
  /\ (forall s,
         length (elements s) <= 2 ->
         Py.startswith (lit "REF*D9*") s = false
         /\ Py.startswith (lit "NM1*IL*") s = false)
  /\ (identifier (lit "REF*D9") = lit "REF"
      /\ elements (lit "REF*D9") = [lit "REF"; lit "D9"])
  /\ (forall cfg segments,
         envelope_findings cfg (filter has_delimiter segments)
         = envelope_findings cfg segments
         /\ qre_findings cfg (filter has_delimiter segments)
            = qre_findings cfg segments
         /\ query_findings cfg (filter has_delimiter segments)
            = query_findings cfg segments
         /\ detected_method cfg (filter has_delimiter segments)
            = detected_method cfg segments)
  /\ (forall path content self r,
         In r (extract_segments content) -> ~ In STAR r ->
         exists rep self',
           analyze_file path (ReadOk content) self = inr (rep, self')
           /\ In r (report_segments_found rep)
           /\ filter (names r)
                (required_findings (config self) (report_segments_found rep))
              = [])
  /\ (forall cfg segments,
         minimalDataPrinciple cfg = true ->
         (forall s, In s segments -> identifier s = lit "UM" ->
                    ~ In STAR s) ->
         In UM_recommended (qre_findings cfg segments))
  /\ (forall cfg segments,
         validateEnvelopes cfg = true ->
         (forall s, In s segments -> identifier s = lit "ISA" ->
                    ~ In STAR s) ->
         In ISA_missing (envelope_findings cfg segments)).
Proof.
  split; [|split; [|split; [|split; [|split; [|split]]]]].
  - intros r Hr.
    split; [now apply PyFacts.identifier_no_star|].
    split; [now apply PyFacts.split_no_sep_whole|].
    repeat split; apply bare_not_selected; try exact Hr; star_in.
  - intros s Hlen; split.
    + rewrite (proj1 (proj2 (proj2 (proj2 (proj2 (proj2 (proj2 (proj2
                 (prefix_selects s))))))))).
      now apply short_not_selected.
    + rewrite (proj2 (proj2 (proj2 (proj2 (proj2 (proj2 (proj2 (proj2
                 (prefix_selects s))))))))).
      now apply short_not_selected.
  - split; reflexivity.
  - apply passes_skip_bare.
  - intros path content self r Hin Hr.
    rewrite analyze_file_read_ok, generate_report_run.
    eexists; eexists; split; [reflexivity|].
    cbn [report_segments_found segments_found].
    assert (Hid : In r (map identifier (extract_segments content))).
    { rewrite <- (PyFacts.identifier_no_star r Hr).
      now apply in_map. }
    split; [exact Hid|].
    apply length_zero_iff_nil.
    rewrite required_appended, count_named_missing.
    apply mem_In in Hid; now rewrite Hid.
  - intros cfg segments Hm Hbare.
    unfold qre_findings; rewrite qre_appended, Hm; cbv zeta.
    rewrite (none_selected (lit "UM*") (lit "UM") segments);
      [|intros s; apply (prefix_selects s)|star_in|exact Hbare].
    apply in_or_app; right; apply in_or_app; left; now left.
  - intros cfg segments Hv Hbare.
    unfold envelope_findings; rewrite envelope_appended, Hv; cbv zeta.
    rewrite (none_selected (lit "ISA*") (lit "ISA") segments);
      [|intros s; apply (prefix_selects s)|star_in|exact Hbare].
    apply in_or_app; left; now left.
Qed.

(** C10 on the file [ISA~UM~]: both identifiers are recorded, and the
    missing-ISA ERROR and the UM-recommended WARNING are still raised. *)
Lemma C10_bare_records_witness :
  let cfg := mkConfig (lit "005010X215") true [lit "ISA"; lit "UM"] true
               false in
  let content := lit "ISA~UM~" in
  (exists rep self',
      analyze_file (lit "in.edi") (ReadOk content) (init cfg)
      = inr (rep, self')
      /\ In (lit "UM") (report_segments_found rep)
      /\ filter (names (lit "UM"))
                (required_findings cfg (report_segments_found rep)) = [])
  /\ Py.startswith (lit "UM*") (lit "UM") = false
  /\ In UM_recommended (qre_findings cfg (extract_segments content))
  /\ In ISA_missing (envelope_findings cfg (extract_segments content)).
Proof.
  intros cfg content.
  destruct C10_bare_records as (HA & _ & _ & _ & HD & HE & HF).
  assert (Hum : ~ In STAR (lit "UM"))
    by (cbv; intuition discriminate).
  assert (Hall : forall s, In s (extract_segments content) -> ~ In STAR s).
  { intros s [<-|[<-|[]]]; cbv; intuition discriminate. }
  split; [|split; [|split]].
  - apply (HD (lit "in.edi") content (init cfg) (lit "UM"));
      [right; now left|exact Hum].
  - exact (proj1 (proj2 (proj2 (proj2 (proj2 (proj2 (proj2
             (HA (lit "UM") Hum)))))))).
  - apply HE; [reflexivity|intros s Hs _; now apply Hall].
  - apply HF; [reflexivity|intros s Hs _; now apply Hall].
Defined.

(** ** Concrete runs *)

(** A well-formed inquiry by authorization number: valid, one INFO. *)
Example run_inquiry_by_authorization :
  let cfg := mkConfig (lit "005010X215") true
               [lit "ISA"; lit "GS"; lit "ST"; lit "BHT"] true false in
  let content :=
    lit "ISA*00~GS*HI~ST*278*0001*005010X215~BHT*0007*13~UM*HS~REF*D9*AUTH123~SE*6*0001~" in
  exists self',
    analyze_file (lit "in.edi") (ReadOk content) (init cfg)
    = inr (mkAnalysisReport (lit "in.edi") (lit "005010X215") true 0 0 1
             [by_authorization] (Some (lit "ByAuthorizationNumber"))
             [lit "ISA"; lit "GS"; lit "ST"; lit "BHT"; lit "UM"; lit "REF";
              lit "SE"],
           self').
Proof. eexists; vm_compute; reflexivity. Qed.

(** The empty file: every header is missing, BHT is missing, UM is
    recommended and the query method is unknown. *)
Example run_empty_input :
  let cfg := mkConfig (lit "005010X215") true [lit "BHT"] true false in
  exists self',
    analyze_file (lit "in.edi") (ReadOk []) (init cfg)
    = inr (mkAnalysisReport (lit "in.edi") (lit "005010X215") false 4 2 0
             [ISA_missing; GS_missing; ST_missing;
              segment_missing (lit "BHT"); UM_recommended; method_unknown]
             (Some (lit "Unknown")) [],
           self').
Proof. eexists; vm_compute; reflexivity. Qed.

(** Warnings alone invalidate the report only under [failOnWarnings]. *)
Example run_fail_on_warnings :
  let content := lit "ISA*00~GS*HI~ST*278*0001*005010X215~REF*D9*A~" in
  let verdict fow :=
    match analyze_file (lit "in.edi") (ReadOk content)
            (init (mkConfig (lit "005010X215") true [] true fow)) with
    | inr (rep, _) => Some (is_valid rep, error_count rep, warning_count rep)
    | inl _ => None
    end in
  verdict false = Some (true, 0, 1) /\ verdict true = Some (false, 0, 1).
Proof. split; vm_compute; reflexivity. Qed.

(** * Further properties of the passes *)

Lemma no_match_iff {A} (p : A -> bool) l :
  (length (filter p l) =? 0) = negb (existsb p l).
Proof.
  induction l as [|x l IH]; simpl; [reflexivity|].
  destruct (p x); simpl; [reflexivity|exact IH].
Qed.

Lemma filter_nil_iff {A} (p : A -> bool) l :
  filter p l = [] <-> existsb p l = false.
Proof.
  rewrite <- length_zero_iff_nil, <- Nat.eqb_eq, no_match_iff.
  destruct (existsb p l); simpl; split; congruence.
Qed.

Lemma ST_checks_other_codes st0 :
  with_code "ENV003" (ST_code_check st0 ++ ST_version_check st0) = [].
Proof. unfold ST_code_check, ST_version_check; by_cases. Qed.

(** ** Envelope pass: functional group and transaction set headers *)

(** X1. With envelope validation on, the pass emits exactly one ENV003
    ERROR when no segment begins with [GS*] and none otherwise; any
    number of GS segments beyond the first changes nothing. *)
Theorem X1_GS_rule :
  forall cfg segments,
    validateEnvelopes cfg = true ->
    with_code "ENV003" (envelope_findings cfg segments)
    = (if existsb (has_fields [lit "GS"]) segments then []
       else [GS_missing])
    /\ severity GS_missing = ERROR
    /\ forall s, has_fields [lit "GS"] s = Py.startswith (lit "GS*") s.
Proof.
  intros cfg segments Hv; split; [|split; [reflexivity|]].
  - rewrite (envelope_findings_fields _ _ Hv); cbv zeta.
    rewrite !with_code_app, (no_match_iff (has_fields [lit "GS"])).
    destruct (existsb (has_fields [lit "GS"]) segments); cbn [negb];
      (destruct (filter (has_fields [lit "ST"]) segments) as [|st0 rest];
       [|rewrite ST_checks_other_codes]);
      destruct (length (filter (has_fields [lit "ISA"]) segments))
        as [|[|k]]; by_cases.
  - intros s; symmetry; apply (prefix_selects s).
Qed.

(** X1 on two functional groups and on none. *)
Lemma X1_GS_rule_witness :
  let cfg := mkConfig (lit "005010X215") true [] true false in
  validateEnvelopes cfg = true
  /\ with_code "ENV003"
       (envelope_findings cfg [lit "GS*HI*A"; lit "GS*HI*B"]) = []
  /\ with_code "ENV003" (envelope_findings cfg [lit "GS"; lit "ISA*00"])
     = [GS_missing].
Proof.
  intros cfg; split; [reflexivity|split].
  - exact (proj1 (X1_GS_rule cfg [lit "GS*HI*A"; lit "GS*HI*B"] eq_refl)).
  - exact (proj1 (X1_GS_rule cfg [lit "GS"; lit "ISA*00"] eq_refl)).
Defined.

(** X2. With envelope validation on, the pass emits exactly one ENV004
    ERROR when no segment begins with [ST*] and none otherwise; and when
    there is no such segment, neither the transaction-code ERROR nor the
    version WARNING is emitted. *)
Theorem X2_ST_missing_rule :
  forall cfg segments,
    validateEnvelopes cfg = true ->
    with_code "ENV004" (envelope_findings cfg segments)
    = (if existsb (has_fields [lit "ST"]) segments then []
       else [ST_missing])
    /\ (existsb (has_fields [lit "ST"]) segments = false ->
        with_code "ENV005" (envelope_findings cfg segments) = []
        /\ with_code "ENV006" (envelope_findings cfg segments) = [])
    /\ severity ST_missing = ERROR.
Proof.
  intros cfg segments Hv.
  rewrite (envelope_findings_fields _ _ Hv); cbv zeta.
  rewrite !with_code_app.
  split; [|split; [|reflexivity]].
  - destruct (filter (has_fields [lit "ST"]) segments) as [|st0 rest] eqn:E.
    + apply filter_nil_iff in E; rewrite E.
      destruct (length (filter (has_fields [lit "ISA"]) segments))
        as [|[|k]]; by_cases.
    + assert (Hex : existsb (has_fields [lit "ST"]) segments = true).
      { destruct (existsb (has_fields [lit "ST"]) segments) eqn:Ex;
          [reflexivity|].
        apply filter_nil_iff in Ex; congruence. }
      rewrite Hex, (proj1 (proj2 (proj2 (ST_checks_codes st0)))).
      destruct (length (filter (has_fields [lit "ISA"]) segments))
        as [|[|k]]; by_cases.
  - intros Hex; apply filter_nil_iff in Hex; rewrite Hex.
    split;
      destruct (length (filter (has_fields [lit "ISA"]) segments))
        as [|[|k]]; by_cases.
Qed.

(** X2 on a file without transaction set header. *)
Lemma X2_ST_missing_witness :
  let cfg := mkConfig (lit "005010X215") true [] true false in
  let segments := [lit "ISA*00"; lit "GS*HI"; lit "ST"] in
  validateEnvelopes cfg = true
  /\ existsb (has_fields [lit "ST"]) segments = false
  /\ with_code "ENV004" (envelope_findings cfg segments) = [ST_missing]
  /\ with_code "ENV005" (envelope_findings cfg segments) = [].
Proof.
  intros cfg segments.
  pose proof (X2_ST_missing_rule cfg segments eq_refl) as (H4 & H5 & _).
  split; [reflexivity|split; [reflexivity|split]].
  - exact H4.
  - exact (proj1 (H5 eq_refl)).
Defined.

Ltac all_cases :=
  cbn [Nat.eqb Nat.ltb Nat.leb];
  repeat match goal with
    | |- context [if ?c then _ else _] => destruct c
    | |- context [match nth_error ?l ?i with _ => _ end] =>
        destruct (nth_error l i)
    | |- context [match ?l with [] => _ | _ :: _ => _ end] => destruct l
    end.

Lemma envelope_findings_classes cfg segments :
  length (envelope_findings cfg segments) <= 4
  /\ Forall (fun f =>
               Py.startswith (lit "ENV") (code f) = true
               /\ severity f <> INFO
               /\ (segment f = Some (lit "ISA")
                   \/ segment f = Some (lit "GS")
                   \/ segment f = Some (lit "ST")))
            (envelope_findings cfg segments).
Proof.
  unfold envelope_findings.
  rewrite envelope_appended; cbv zeta.
  destruct (validateEnvelopes cfg);
    [|split; [simpl; lia|constructor]].
  destruct (length (filter (Py.startswith (lit "ISA*")) segments))
    as [|[|k]]; all_cases; (split; [simpl; lia|]);
    repeat (apply Forall_cons; [split; [reflexivity|split;
      [discriminate
      |first [left; reflexivity|right; left; reflexivity
             |right; right; reflexivity]]]|]);
    apply Forall_nil.
Qed.

(** X3. The envelope pass appends nothing when [validateEnvelopes] is
    off.  When it is on it appends at most four findings; each has an
    ENV code, names ISA, GS or ST, and is an ERROR or a WARNING, never an
    INFO. *)
Theorem X3_envelope_findings_bounded :
  (forall tr req md fw segments,
      envelope_findings (mkConfig tr false req md fw) segments = [])
  /\ forall cfg segments,
       length (envelope_findings cfg segments) <= 4
       /\ Forall (fun f =>
                    Py.startswith (lit "ENV") (code f) = true
                    /\ severity f <> INFO
                    /\ (segment f = Some (lit "ISA")
                        \/ segment f = Some (lit "GS")
                        \/ segment f = Some (lit "ST")))
                 (envelope_findings cfg segments).
Proof.
  split.
  - intros; unfold envelope_findings; now rewrite envelope_appended.
  - apply envelope_findings_classes.
Qed.

(** ** Minimal-data pass *)

(** The findings of the minimal-data pass, with the selections read as
    element tests. *)
Lemma qre_findings_fields cfg segments :
  minimalDataPrinciple cfg = true ->
  qre_findings cfg segments
  = match filter (has_fields [lit "BHT"]) segments with
    | [] => []
    | bht0 :: _ =>
        match nth_error (elements bht0) 1 with
        | Some e => if Py.eqb e (lit "0007") then [] else [BHT_bad_code e e]
        | None => []
        end
    end
    ++ (if existsb (has_fields [lit "UM"]) segments then []
        else [UM_recommended])
    ++ match filter (has_fields [lit "HCR"]) segments with
       | [] => []
       | hcr0 :: _ =>
           match nth_error (elements hcr0) 1 with
           | Some e =>
               if Py.mem e [lit "I1"; lit "A1"; lit "A2"; lit "A3"; lit "A4"]
               then [] else [HCR_action e e]
           | None => []
           end
       end.
Proof.
  intros Hm; unfold qre_findings; rewrite qre_appended, Hm; cbv zeta.
  rewrite (filter_ext_eq (Py.startswith (lit "BHT*"))
             (has_fields [lit "BHT"]) segments)
    by (intros x; apply (prefix_selects x)).
  rewrite (filter_ext_eq (Py.startswith (lit "UM*"))
             (has_fields [lit "UM"]) segments)
    by (intros x; apply (prefix_selects x)).
  rewrite (filter_ext_eq (Py.startswith (lit "HCR*"))
             (has_fields [lit "HCR"]) segments)
    by (intros x; apply (prefix_selects x)).
  do 2 f_equal.
  destruct (filter (has_fields [lit "UM"]) segments) as [|u l] eqn:E.
  - apply filter_nil_iff in E; now rewrite E.
  - destruct (existsb (has_fields [lit "UM"]) segments) eqn:Ex;
      [reflexivity|].
    apply filter_nil_iff in Ex; congruence.
Qed.

Lemma selected_has_second seg_id segments s rest :
  filter (has_fields [seg_id]) segments = s :: rest ->
  exists e, nth_error (elements s) 1 = Some e.
Proof.
  intros E.
  assert (Hin : In s (filter (has_fields [seg_id]) segments))
    by (rewrite E; now left).
  apply filter_In in Hin as [_ Hf].
  apply has_fields_iff in Hf as (tl & Htl & Hel).
  destruct tl as [|e tl]; [congruence|].
  exists e; now rewrite Hel.
Qed.

(** X4. With the minimal-data principle on, only the first segment
    beginning with [BHT*] is inspected.  It always has a second element;
    if that differs from ['0007'] exactly one QRE002 WARNING is emitted,
    whose message and [bht01] context entry carry the value found;
    otherwise, and when there is no such segment, no QRE002 is
    emitted. *)
Theorem X4_BHT_rule :
  forall cfg segments,
    minimalDataPrinciple cfg = true ->
    with_code "QRE002" (qre_findings cfg segments)
    = match filter (has_fields [lit "BHT"]) segments with
      | [] => []
      | bht0 :: _ =>
          match nth_error (elements bht0) 1 with
          | Some e =>
              if Py.eqb e (lit "0007") then [] else [BHT_bad_code e e]
          | None => []
          end
      end
    /\ (forall bht0 rest,
           filter (has_fields [lit "BHT"]) segments = bht0 :: rest ->
           exists e, nth_error (elements bht0) 1 = Some e)
    /\ (forall e,
           severity (BHT_bad_code e e) = WARNING
           /\ context (BHT_bad_code e e) = [(lit "bht01", e)]
           /\ message (BHT_bad_code e e)
              = lit "BHT01 should be '0007' for inquiry, found '" ++ e
                ++ lit "'").
Proof.
  intros cfg segments Hm; split; [|split].
  - rewrite (qre_findings_fields _ _ Hm), !with_code_app.
    transitivity
      (match filter (has_fields [lit "BHT"]) segments with
       | [] => []
       | bht0 :: _ =>
           match nth_error (elements bht0) 1 with
           | Some e =>
               if Py.eqb e (lit "0007") then [] else [BHT_bad_code e e]
           | None => []
           end
       end ++ [] ++ []); [|now rewrite !app_nil_r].
    f_equal; [all_cases; reflexivity|f_equal; all_cases; reflexivity].
  - intros bht0 rest; apply selected_has_second.
  - intros e; repeat split.
Qed.

(** X4 on a response-type BHT. *)
Lemma X4_BHT_rule_witness :
  let cfg := mkConfig (lit "005010X215") true [] true false in
  let segments := [lit "BHT*0078*11"; lit "BHT*0007*13"] in
  minimalDataPrinciple cfg = true
  /\ with_code "QRE002" (qre_findings cfg segments)
     = [BHT_bad_code (lit "0078") (lit "0078")].
Proof.
  intros cfg segments; split; [reflexivity|].
  exact (proj1 (X4_BHT_rule cfg segments eq_refl)).
Defined.

(** X5. With the minimal-data principle on, exactly one QRE003 WARNING
    is emitted when no segment begins with [UM*], and none otherwise; the
    content of a UM segment is never inspected. *)
Theorem X5_UM_rule :
  forall cfg segments,
    minimalDataPrinciple cfg = true ->
    with_code "QRE003" (qre_findings cfg segments)
    = (if existsb (has_fields [lit "UM"]) segments then []
       else [UM_recommended])
    /\ severity UM_recommended = WARNING
    /\ forall s, has_fields [lit "UM"] s = Py.startswith (lit "UM*") s.
Proof.
  intros cfg segments Hm; split; [|split; [reflexivity|]].
  - rewrite (qre_findings_fields _ _ Hm), !with_code_app.
    transitivity
      ([] ++ (if existsb (has_fields [lit "UM"]) segments then []
              else [UM_recommended]) ++ []); [|now rewrite app_nil_r].
    f_equal; [all_cases; reflexivity|f_equal; all_cases; reflexivity].
  - intros s; symmetry; apply (prefix_selects s).
Qed.

(** X5 with and without a UM segment. *)
Lemma X5_UM_rule_witness :
  let cfg := mkConfig (lit "005010X215") true [] true false in
  minimalDataPrinciple cfg = true
  /\ with_code "QRE003" (qre_findings cfg [lit "UM*"]) = []
  /\ with_code "QRE003" (qre_findings cfg [lit "BHT*0007"])
     = [UM_recommended].
Proof.
  intros cfg; split; [reflexivity|split].
  - exact (proj1 (X5_UM_rule cfg [lit "UM*"] eq_refl)).
  - exact (proj1 (X5_UM_rule cfg [lit "BHT*0007"] eq_refl)).
Defined.

(** X6. With the minimal-data principle on, only the first segment
    beginning with [HCR*] is inspected.  If its second element is none of
    I1, A1, A2, A3, A4, exactly one QRE004 finding is emitted, of
    severity INFO, carrying the value found; otherwise, and when there is
    no such segment, no QRE004 is emitted. *)
Theorem X6_HCR_rule :
  forall cfg segments,
    minimalDataPrinciple cfg = true ->
    with_code "QRE004" (qre_findings cfg segments)
    = match filter (has_fields [lit "HCR"]) segments with
      | [] => []
      | hcr0 :: _ =>
          match nth_error (elements hcr0) 1 with
          | Some e =>
              if Py.mem e [lit "I1"; lit "A1"; lit "A2"; lit "A3"; lit "A4"]
              then [] else [HCR_action e e]
          | None => []
          end
      end
    /\ (forall hcr0 rest,
           filter (has_fields [lit "HCR"]) segments = hcr0 :: rest ->
           exists e, nth_error (elements hcr0) 1 = Some e)
    /\ (forall e,
           severity (HCR_action e e) = INFO
           /\ context (HCR_action e e) = [(lit "hcr01", e)]
           /\ message (HCR_action e e)
              = lit "HCR01 action code is '" ++ e
                ++ lit "' (I1=Inquiry is recommended)").
Proof.
  intros cfg segments Hm; split; [|split].
  - rewrite (qre_findings_fields _ _ Hm), !with_code_app.
    transitivity
      ([] ++ [] ++
       match filter (has_fields [lit "HCR"]) segments with
       | [] => []
       | hcr0 :: _ =>
           match nth_error (elements hcr0) 1 with
           | Some e =>
               if Py.mem e [lit "I1"; lit "A1"; lit "A2"; lit "A3"; lit "A4"]
               then [] else [HCR_action e e]
           | None => []
           end
       end); [|reflexivity].
    f_equal; [all_cases; reflexivity|f_equal; all_cases; reflexivity].
  - intros hcr0 rest; apply selected_has_second.
  - intros e; repeat split.
Qed.

(** X6 on a certified-in-total response code. *)
Lemma X6_HCR_rule_witness :
  let cfg := mkConfig (lit "005010X215") true [] true false in
  minimalDataPrinciple cfg = true
  /\ with_code "QRE004" (qre_findings cfg [lit "HCR*A6*X"; lit "HCR*I1"])
     = [HCR_action (lit "A6") (lit "A6")]
  /\ with_code "QRE004" (qre_findings cfg [lit "HCR*A3"]) = [].
Proof.
  intros cfg; split; [reflexivity|split].
  - exact (proj1 (X6_HCR_rule cfg [lit "HCR*A6*X"; lit "HCR*I1"] eq_refl)).
  - exact (proj1 (X6_HCR_rule cfg [lit "HCR*A3"] eq_refl)).
Defined.

(** ** Reports of a successful read *)

Lemma count_severity_app sev l1 l2 :
  count_severity sev (l1 ++ l2)
  = count_severity sev l1 + count_severity sev l2.
Proof. unfold count_severity; now rewrite filter_app, length_app. Qed.

(** The report and the analyzer after a successful read, in full. *)
Lemma read_ok_report path content self :
  let cfg := config self in
  let segments := extract_segments content in
  let ids := map identifier segments in
  let all := envelope_findings cfg segments ++ required_findings cfg ids
             ++ qre_findings cfg segments ++ query_findings cfg segments in
  analyze_file path (ReadOk content) self
  = inr (mkAnalysisReport path (tr3Version cfg)
           ((count_severity ERROR all =? 0)
            && (negb (failOnWarnings cfg)
                || (count_severity WARNING all =? 0)))
           (count_severity ERROR all) (count_severity WARNING all)
           (count_severity INFO all) all
           (detected_method cfg segments) ids,
         mkAnalyzer cfg all ids (detected_method cfg segments)).
Proof.
  intros cfg segments ids all.
  rewrite analyze_file_read_ok, generate_report_run.
  cbn [config results segments_found query_method].
  fold cfg segments ids all.
  rewrite !sum1_length; fold (count_severity ERROR all).
  fold (count_severity WARNING all); fold (count_severity INFO all).
  destruct (failOnWarnings cfg); cbn [negb orb];
    [reflexivity|now rewrite andb_true_r].
Qed.

Lemma envelope_findings_flag c1 c2 segments :
  validateEnvelopes c1 = validateEnvelopes c2 ->
  envelope_findings c1 segments = envelope_findings c2 segments.
Proof.
  intros H; unfold envelope_findings; now rewrite !envelope_appended, H.
Qed.

Lemma required_findings_list c1 c2 found :
  requiredSegments c1 = requiredSegments c2 ->
  required_findings c1 found = required_findings c2 found.
Proof. intros H; now rewrite !required_appended, H. Qed.

Lemma qre_findings_flag c1 c2 segments :
  minimalDataPrinciple c1 = minimalDataPrinciple c2 ->
  qre_findings c1 segments = qre_findings c2 segments.
Proof.
  intros H; unfold qre_findings; now rewrite !qre_appended, H.
Qed.

Lemma query_findings_any c1 c2 segments :
  query_findings c1 segments = query_findings c2 segments
  /\ detected_method c1 segments = detected_method c2 segments.
Proof.
  pose proof (detect_decision c1 segments) as H1.
  pose proof (detect_decision c2 segments) as H2.
  cbv zeta in H1, H2; rewrite <- H2 in H1.
  injection H1 as -> ->; split; reflexivity.
Qed.

Lemma qre_no_error cfg segments :
  count_severity ERROR (qre_findings cfg segments) = 0.
Proof.
  unfold qre_findings; rewrite qre_appended; cbv zeta.
  destruct (minimalDataPrinciple cfg); [|reflexivity].
  all_cases; reflexivity.
Qed.

Lemma query_no_error cfg segments :
  count_severity ERROR (query_findings cfg segments) = 0.
Proof.
  pose proof (detect_decision cfg segments) as H; cbv zeta in H.
  destruct (existsb (has_fields [lit "REF"; lit "D9"]) segments);
    [|destruct (existsb _ segments && existsb _ segments)];
    injection H as _ ->; reflexivity.
Qed.

Lemma qre_findings_classes cfg segments :
  length (qre_findings cfg segments) <= 3
  /\ Forall (fun f => Py.startswith (lit "QRE") (code f) = true
                      /\ severity f <> ERROR)
            (qre_findings cfg segments).
Proof.
  unfold qre_findings.
  rewrite qre_appended; cbv zeta.
  destruct (minimalDataPrinciple cfg);
    [|split; [simpl; lia|constructor]].
  all_cases; (split; [simpl; lia|]);
    repeat (apply Forall_cons; [split; [reflexivity|discriminate]|]);
    apply Forall_nil.
Qed.

(** X7. The minimal-data pass appends nothing when
    [minimalDataPrinciple] is off.  When it is on it appends at most
    three findings, each with a QRE code and never of severity ERROR.
    So when [failOnWarnings] is off, switching the minimal-data principle
    on or off changes neither the error count nor the verdict of a
    report. *)
Theorem X7_minimal_data_never_errors :
  (forall tr ve req fw segments,
      qre_findings (mkConfig tr ve req false fw) segments = [])
  /\ (forall cfg segments,
         length (qre_findings cfg segments) <= 3
         /\ Forall (fun f => Py.startswith (lit "QRE") (code f) = true
                             /\ severity f <> ERROR)
                   (qre_findings cfg segments))
  /\ (forall tr ve req md path content,
         exists rep self' rep0 self0,
           analyze_file path (ReadOk content)
             (init (mkConfig tr ve req md false)) = inr (rep, self')
           /\ analyze_file path (ReadOk content)
                (init (mkConfig tr ve req false false)) = inr (rep0, self0)
           /\ error_count rep = error_count rep0
           /\ is_valid rep = is_valid rep0).
Proof.
  split; [|split].
  - intros; unfold qre_findings; now rewrite qre_appended.
  - apply qre_findings_classes.
  - intros tr ve req md path content.
    do 4 eexists.
    rewrite !read_ok_report.
    split; [reflexivity|split; [reflexivity|]].
    cbn [error_count is_valid config init failOnWarnings negb orb].
    rewrite !andb_true_r, !count_severity_app, !qre_no_error.
    rewrite (envelope_findings_flag (mkConfig tr ve req md false)
               (mkConfig tr ve req false false)) by reflexivity.
    rewrite (required_findings_list (mkConfig tr ve req md false)
               (mkConfig tr ve req false false)) by reflexivity.
    rewrite (proj1 (query_findings_any (mkConfig tr ve req md false)
                      (mkConfig tr ve req false false) _)).
    split; reflexivity.
Qed.

(** ** What a verdict means *)

Lemma envelope_error_free cfg segments :
  validateEnvelopes cfg = true ->
  (count_severity ERROR (envelope_findings cfg segments) =? 0)
  = existsb (has_fields [lit "ISA"]) segments
    && existsb (has_fields [lit "GS"]) segments
    && match filter (has_fields [lit "ST"]) segments with
       | st0 :: _ => element_is 1 (lit "278") st0
       | [] => false
       end.
Proof.
  intros Hv; rewrite (envelope_findings_fields _ _ Hv); cbv zeta.
  rewrite !no_match_iff, !count_severity_app.
  destruct (filter (has_fields [lit "ST"]) segments) as [|st0 rest] eqn:E.
  - destruct (existsb (has_fields [lit "ISA"]) segments),
      (existsb (has_fields [lit "GS"]) segments); cbn [negb];
      all_cases; reflexivity.
  - destruct (selected_has_second _ _ _ _ E) as [e He].
    unfold ST_code_check, ST_version_check, element_is; rewrite He.
    destruct (existsb (has_fields [lit "ISA"]) segments),
      (existsb (has_fields [lit "GS"]) segments); cbn [negb];
      all_cases; reflexivity.
Qed.

Lemma required_error_free cfg found :
  (count_severity ERROR (required_findings cfg found) =? 0)
  = forallb (fun seg_id => Py.mem seg_id found) (requiredSegments cfg).
Proof.
  rewrite required_appended.
  induction (requiredSegments cfg) as [|x l IH]; [reflexivity|].
  cbn [filter forallb]; destruct (Py.mem x found); cbn [negb andb].
  - exact IH.
  - reflexivity.
Qed.

Lemma sum_zero_eqb a b : (a + b =? 0) = (a =? 0) && (b =? 0).
Proof. destruct a, b; reflexivity. Qed.

(** X8. What a clean report means.  After a successful read the error
    count is 0 exactly when (a) envelope validation is off, or some
    segment begins with [ISA*], some segment begins with [GS*], and the
    first segment beginning with [ST*] exists and has second element
    ['278']; and (b) every required identifier is in [segments_found].
    The verdict [is_valid] adds to this only the warning test under
    [failOnWarnings].  In particular a valid report has every required
    identifier among its segments. *)
Theorem X8_verdict_characterised :
  forall path content self,
    let cfg := config self in
    let segments := extract_segments content in
    let structure_ok :=
      (negb (validateEnvelopes cfg)
       || existsb (has_fields [lit "ISA"]) segments
          && existsb (has_fields [lit "GS"]) segments
          && match filter (has_fields [lit "ST"]) segments with
             | st0 :: _ => element_is 1 (lit "278") st0
             | [] => false
             end)
      && forallb (fun seg_id => Py.mem seg_id (map identifier segments))
                 (requiredSegments cfg) in
    exists rep self',
      analyze_file path (ReadOk content) self = inr (rep, self')
      /\ (error_count rep =? 0) = structure_ok
      /\ is_valid rep
         = structure_ok
           && (negb (failOnWarnings cfg) || (warning_count rep =? 0))
      /\ (is_valid rep = true ->
          forall seg_id, In seg_id (requiredSegments cfg) ->
                         In seg_id (report_segments_found rep)).
Proof.
  intros path content self cfg segments structure_ok.
  rewrite read_ok_report; fold cfg segments.
  do 2 eexists; split; [reflexivity|].
  cbn [error_count is_valid warning_count report_segments_found].
  assert (He : (count_severity ERROR
                  (envelope_findings cfg segments
                   ++ required_findings cfg (map identifier segments)
                   ++ qre_findings cfg segments
                   ++ query_findings cfg segments) =? 0) = structure_ok).
  { rewrite !count_severity_app, qre_no_error, query_no_error.
    rewrite !Nat.add_0_r, sum_zero_eqb, required_error_free.
    subst structure_ok; f_equal.
    destruct (validateEnvelopes cfg) eqn:Hv; cbn [negb orb].
    - now apply envelope_error_free.
    - unfold envelope_findings; now rewrite envelope_appended, Hv. }
  split; [exact He|split; [now rewrite He|]].
  rewrite He; intros Hvalid seg_id Hin.
  apply andb_true_iff in Hvalid as [Hs _].
  subst structure_ok; apply andb_true_iff in Hs as [_ Hreq].
  rewrite forallb_forall in Hreq.
  now apply mem_In, Hreq.
Qed.

(** X8 on a complete inquiry. *)
Lemma X8_verdict_witness :
  let cfg := mkConfig (lit "005010X215") true
               [lit "ISA"; lit "GS"; lit "ST"; lit "BHT"] true true in
  let content :=
    lit "ISA*00~GS*HI~ST*278*0001*005010X215~BHT*0007*13~UM*HS~REF*D9*A~" in
  exists rep self',
    analyze_file (lit "in.edi") (ReadOk content) (init cfg)
    = inr (rep, self')
    /\ is_valid rep = true
    /\ In (lit "BHT") (report_segments_found rep).
Proof.
  intros cfg content.
  destruct (X8_verdict_characterised (lit "in.edi") content (init cfg))
    as (rep & self' & Hrun & _ & Hvalid & Hreq).
  assert (Hv : is_valid rep = true).
  { pose proof Hrun as Hrun'.
    vm_compute in Hrun'; injection Hrun' as <- _; reflexivity. }
  exists rep, self'; split; [exact Hrun|split; [exact Hv|]].
  apply (Hreq Hv); cbn; tauto.
Defined.

(** X9. [failOnWarnings] changes the verdict and nothing else: run on
    the same text with the flag on and off, the two reports have the same
    findings, counters, query method and identifiers; the lenient verdict
    is "no error", and the strict verdict is the lenient one and "no
    warning".  So a report valid under [failOnWarnings] is valid without
    it. *)
Theorem X9_fail_on_warnings_only_tightens :
  forall tr ve req md path content,
  exists strict s1 lenient s2,
    analyze_file path (ReadOk content) (init (mkConfig tr ve req md true))
    = inr (strict, s1)
    /\ analyze_file path (ReadOk content)
         (init (mkConfig tr ve req md false)) = inr (lenient, s2)
    /\ report_results strict = report_results lenient
    /\ error_count strict = error_count lenient
    /\ warning_count strict = warning_count lenient
    /\ info_count strict = info_count lenient
    /\ report_query_method strict = report_query_method lenient
    /\ report_segments_found strict = report_segments_found lenient
    /\ is_valid lenient = (error_count lenient =? 0)
    /\ is_valid strict
       = is_valid lenient && (warning_count lenient =? 0).
Proof.
  intros tr ve req md path content.
  do 4 eexists.
  rewrite !read_ok_report.
  split; [reflexivity|split; [reflexivity|]].
  cbn [report_results error_count warning_count info_count is_valid
       report_query_method report_segments_found config init
       failOnWarnings negb orb].
  rewrite (envelope_findings_flag (mkConfig tr ve req md true)
             (mkConfig tr ve req md false)) by reflexivity.
  rewrite (required_findings_list (mkConfig tr ve req md true)
             (mkConfig tr ve req md false)) by reflexivity.
  rewrite (qre_findings_flag (mkConfig tr ve req md true)
             (mkConfig tr ve req md false)) by reflexivity.
  destruct (query_findings_any (mkConfig tr ve req md true)
              (mkConfig tr ve req md false) (extract_segments content))
    as [-> ->].
  rewrite !andb_true_r.
  repeat split; reflexivity.
Qed.

(** X10. After a successful read the report always carries a query
    method, and it agrees with the last finding: ByAuthorizationNumber
    with the QRE005 INFO, ByMemberDemographics with the QRE006 INFO, or
    Unknown with the QRE007 WARNING.  An Unknown method therefore counts
    at least one warning, and under [failOnWarnings] makes the report
    invalid. *)
Theorem X10_query_method_matches_last_finding :
  forall path content self,
  exists rep self',
    analyze_file path (ReadOk content) self = inr (rep, self')
    /\ ((report_query_method rep = Some (lit "ByAuthorizationNumber")
         /\ last (report_results rep) ISA_missing = by_authorization
         /\ 1 <= info_count rep)
        \/ (report_query_method rep = Some (lit "ByMemberDemographics")
            /\ last (report_results rep) ISA_missing = by_demographics
            /\ 1 <= info_count rep)
        \/ (report_query_method rep = Some (lit "Unknown")
            /\ last (report_results rep) ISA_missing = method_unknown
            /\ 1 <= warning_count rep
            /\ failOnWarnings (config self) && is_valid rep = false)).
Proof.
  intros path content self.
  rewrite read_ok_report.
  do 2 eexists; split; [reflexivity|].
  cbn [report_query_method report_results info_count warning_count
       is_valid].
  pose proof (detect_decision (config self) (extract_segments content))
    as Hd; cbv zeta in Hd.
  rewrite !app_assoc, !count_severity_app.
  destruct (existsb (has_fields [lit "REF"; lit "D9"])
              (extract_segments content));
    [|destruct (existsb (has_fields [lit "NM1"; lit "IL"]) _
               && existsb (has_fields [lit "DMG"]) _)];
    injection Hd as -> ->.
  - left; rewrite last_last; repeat split; cbn; lia.
  - right; left; rewrite last_last; repeat split; cbn; lia.
  - right; right; rewrite last_last; repeat split; [cbn; lia|].
    destruct (failOnWarnings (config self)); [|reflexivity].
    cbn [negb orb andb].
    replace (count_severity WARNING [method_unknown]) with 1
      by reflexivity.
    rewrite Nat.add_1_r; cbn [Nat.eqb]; apply andb_false_r.
Qed.

(** X11. A report depends on the configuration and the input only, not
    on what the analyzer held from earlier runs.  After a successful read
    the analyzer holds exactly the report's findings, identifiers and
    query method, and analyzing the same text again returns the same
    report.  After a failed read the analyzer is left as it was. *)
Theorem X11_report_independent_of_earlier_runs :
  forall path rd self,
  exists rep self' fresh',
    analyze_file path rd self = inr (rep, self')
    /\ analyze_file path rd (init (config self)) = inr (rep, fresh')
    /\ config self' = config self
    /\ match rd with
       | ReadOk _ =>
           self' = fresh'
           /\ results self' = report_results rep
           /\ segments_found self' = report_segments_found rep
           /\ query_method self' = report_query_method rep
           /\ analyze_file path rd self' = inr (rep, self')
       | ReadFailed _ => self' = self
       end.
Proof.
  intros path [content|e] self.
  - do 3 eexists.
    rewrite !read_ok_report.
    cbn [config init].
    split; [reflexivity|split; [reflexivity|]].
    repeat split.
  - do 3 eexists.
    split; [reflexivity|split; [reflexivity|split; reflexivity]].
Qed.

(** * Further properties of segment extraction *)

Lemma split_app sep a b :
  Py.split sep (a ++ sep :: b) = Py.split sep a ++ Py.split sep b.
Proof.
  induction a as [|c a IH]; cbn [app].
  - now rewrite PyFacts.split_cons_sep.
  - cbn [Py.split]; destruct (N.eqb c sep); rewrite IH; [reflexivity|].
    destruct (Py.split sep a) as [|p ps] eqn:E; [|reflexivity].
    now apply PyFacts.split_not_nil in E.
Qed.

Lemma strip_nonempty_app l1 l2 :
  strip_nonempty (l1 ++ l2) = strip_nonempty l1 ++ strip_nonempty l2.
Proof. unfold strip_nonempty; now rewrite filter_app, map_app. Qed.

Lemma extract_segments_app a b :
  extract_segments (a ++ TILDE :: b)
  = extract_segments a ++ extract_segments b.
Proof.
  unfold extract_segments; cbv zeta.
  now rewrite split_app, strip_nonempty_app.
Qed.

(** X12. Extraction works terminator by terminator: the records of a
    text followed by ['~'] and a second text are the records of the first
    followed by the records of the second, and likewise for the
    identifiers a report lists; so a final terminator is optional and
    repeated terminators add nothing. *)
Theorem X12_extraction_concatenates :
  forall a b,
    extract_segments (a ++ TILDE :: b)
    = extract_segments a ++ extract_segments b
    /\ extract_segments (a ++ [TILDE]) = extract_segments a
    /\ extract_segments (a ++ TILDE :: TILDE :: b)
       = extract_segments (a ++ TILDE :: b)
    /\ forall path self,
       exists rep self',
         analyze_file path (ReadOk (a ++ TILDE :: b)) self
         = inr (rep, self')
         /\ report_segments_found rep
            = map identifier (extract_segments a)
              ++ map identifier (extract_segments b).
Proof.
  intros a b.
  split; [apply extract_segments_app|split; [|split]].
  - rewrite extract_segments_app; apply app_nil_r.
  - rewrite !extract_segments_app.
    change (TILDE :: b) with ([] ++ TILDE :: b).
    now rewrite extract_segments_app.
  - intros path self; rewrite read_ok_report.
    do 2 eexists; split; [reflexivity|].
    cbn [report_segments_found].
    now rewrite extract_segments_app, map_app.
Qed.

Lemma lstrip_spaces_app w x :
  forallb Py.isspace w = true -> Py.lstrip (w ++ x) = Py.lstrip x.
Proof.
  induction w as [|c w IH]; cbn [app forallb]; [reflexivity|].
  intros H; apply andb_true_iff in H as [Hc Hw].
  cbn [Py.lstrip]; rewrite Hc; auto.
Qed.

Lemma lstrip_spaces w : forallb Py.isspace w = true -> Py.lstrip w = [].
Proof.
  intros H; rewrite <- (app_nil_r w); now rewrite lstrip_spaces_app.
Qed.

Lemma forallb_rev {A} (p : A -> bool) l :
  forallb p l = true -> forallb p (rev l) = true.
Proof.
  rewrite !forallb_forall; intros H x Hx; apply H; now apply in_rev.
Qed.

Lemma spaces_no_tilde w : forallb Py.isspace w = true -> ~ In TILDE w.
Proof.
  rewrite forallb_forall; intros H Hin.
  specialize (H _ Hin); discriminate H.
Qed.

Lemma lstrip_fixed_no_lead s : Py.lstrip s = s -> no_lead s.
Proof. intros H; rewrite <- H; apply PyFacts.lstrip_no_lead. Qed.

Lemma clean_ends r :
  clean r -> no_lead r /\ no_lead (rev r) /\ r <> [].
Proof.
  intros (Ht & Hs & _).
  assert (Hl : no_lead r).
  { rewrite <- Hs; apply PyFacts.rstrip_no_lead, PyFacts.lstrip_no_lead. }
  split; [exact Hl|split; [|intros ->; discriminate Ht]].
  unfold Py.strip in Hs; rewrite (PyFacts.lstrip_fixed _ Hl) in Hs.
  unfold Py.rstrip in Hs.
  apply lstrip_fixed_no_lead.
  apply (f_equal (@rev char)) in Hs; now rewrite rev_involutive in Hs.
Qed.

Lemma no_lead_app r x : no_lead r -> r <> [] -> no_lead (r ++ x).
Proof. destruct r; [congruence|auto]. Qed.

Lemma strip_padded pre r post :
  forallb Py.isspace pre = true -> forallb Py.isspace post = true ->
  clean r -> Py.strip (pre ++ r ++ post) = r.
Proof.
  intros Hpre Hpost Hr.
  destruct (clean_ends _ Hr) as (Hl & Hrl & Hne).
  unfold Py.strip; rewrite lstrip_spaces_app by assumption.
  rewrite (PyFacts.lstrip_fixed _ (no_lead_app r post Hl Hne)).
  unfold Py.rstrip; rewrite rev_app_distr.
  rewrite lstrip_spaces_app by now apply forallb_rev.
  rewrite (PyFacts.lstrip_fixed _ Hrl); apply rev_involutive.
Qed.

Lemma extract_padded pre r post :
  forallb Py.isspace pre = true -> forallb Py.isspace post = true ->
  clean r -> extract_segments (pre ++ r ++ post) = [r].
Proof.
  intros Hpre Hpost Hr.
  unfold extract_segments, strip_nonempty; cbv zeta.
  rewrite PyFacts.split_no_sep_whole.
  - pose proof Hr as (Ht & _ & _).
    cbn [filter]; rewrite (strip_padded _ _ _ Hpre Hpost Hr), Ht.
    cbn [map]; now rewrite (strip_padded _ _ _ Hpre Hpost Hr).
  - intros Hin; apply in_app_or in Hin as [Hin|Hin];
      [now apply (spaces_no_tilde _ Hpre)|].
    apply in_app_or in Hin as [Hin|Hin];
      [now apply (proj2 (proj2 Hr))|now apply (spaces_no_tilde _ Hpost)].
Qed.

Lemma extract_spaces w :
  forallb Py.isspace w = true -> extract_segments w = [].
Proof.
  intros Hw; unfold extract_segments, strip_nonempty; cbv zeta.
  rewrite PyFacts.split_no_sep_whole by now apply spaces_no_tilde.
  cbn [filter]; unfold Py.strip; now rewrite (lstrip_spaces _ Hw).
Qed.

Lemma extract_formatted ws pre l :
  forallb Py.isspace ws = true -> forallb Py.isspace pre = true ->
  Forall clean l ->
  extract_segments (pre ++ concat (map (fun r => r ++ TILDE :: ws) l)) = l.
Proof.
  intros Hws Hpre Hall; revert pre Hpre.
  induction Hall as [|r l Hr Hl IH]; intros pre Hpre; cbn [map concat].
  - rewrite app_nil_r; now apply extract_spaces.
  - replace (pre ++ (r ++ TILDE :: ws)
                 ++ concat (map (fun r0 => r0 ++ TILDE :: ws) l))
      with ((pre ++ r ++ [])
              ++ TILDE :: (ws ++ concat (map (fun r0 => r0 ++ TILDE :: ws) l)))
      by (rewrite !app_nil_r, <- !app_assoc; reflexivity).
    rewrite extract_segments_app, (extract_padded _ _ [] Hpre eq_refl Hr).
    now rewrite (IH ws Hws).
Qed.

(** X13. Whitespace around records is immaterial.  A clean record (not
    empty, without surrounding whitespace, without ['~']) wrapped in any
    whitespace is extracted as itself; and a file that writes clean
    records one after the other, each followed by ['~'] and the same
    run of whitespace (a line break, say), is extracted as exactly those
    records, in order. *)
Theorem X13_whitespace_is_immaterial :
  (forall pre r post,
      forallb Py.isspace pre = true -> forallb Py.isspace post = true ->
      clean r -> extract_segments (pre ++ r ++ post) = [r])
  /\ (forall ws l,
         forallb Py.isspace ws = true -> Forall clean l ->
         extract_segments (concat (map (fun r => r ++ TILDE :: ws) l)) = l).
Proof.
  split; [apply extract_padded|].
  intros ws l Hws Hl.
  exact (extract_formatted ws [] l Hws eq_refl Hl).
Qed.

(** X13 on a two-line file with Windows line ends. *)
Lemma X13_whitespace_witness :
  let crlf : str := [13%N; 10%N] in
  let l := [lit "ISA*00"; lit "GS*HI"] in
  extract_segments (concat (map (fun r => r ++ TILDE :: crlf) l)) = l
  /\ extract_segments ([32%N; 9%N] ++ lit "ST*278" ++ crlf) = [lit "ST*278"].
Proof.
  intros crlf l.
  assert (Hc : forall r, In r (lit "ST*278" :: l) -> clean r).
  { intros r Hin; repeat split;
      destruct Hin as [<-|[<-|[<-|[]]]];
      try reflexivity; cbv; intuition discriminate. }
  split.
  - apply (proj2 X13_whitespace_is_immaterial crlf l eq_refl).
    repeat constructor; apply Hc; cbn; tauto.
  - apply (proj1 X13_whitespace_is_immaterial [32%N; 9%N] (lit "ST*278")
             crlf eq_refl eq_refl).
    apply Hc; now left.
Defined.

Lemma identifier_star_free s : ~ In STAR (identifier s).
Proof.
  induction s as [|c s IH]; cbn [identifier]; [intros []|].
  destruct (N.eqb c STAR) eqn:E; [intros []|].
  apply N.eqb_neq in E; intros [H|H]; [congruence|contradiction].
Qed.

Lemma identifier_incl s c : In c (identifier s) -> In c s.
Proof.
  induction s as [|x s IH]; cbn [identifier]; [tauto|].
  destruct (N.eqb x STAR); [intros []|].
  intros [H|H]; [now left|right; auto].
Qed.

Lemma identifier_prefix s : Py.startswith (identifier s) s = true.
Proof.
  induction s as [|c s IH]; cbn [identifier]; [reflexivity|].
  destruct (N.eqb c STAR); [reflexivity|].
  cbn [Py.startswith]; now rewrite N.eqb_refl, IH.
Qed.

Lemma identifier_no_lead s : no_lead s -> no_lead (identifier s).
Proof.
  destruct s as [|c s]; [exact (fun H => H)|].
  cbn [identifier]; destruct (N.eqb c STAR); [intros _; exact I|auto].
Qed.

(** X14. The identifier list of a report has one entry per extracted
    record, in order.  No identifier contains ['*'] or ['~'] or begins
    with whitespace, and each is a prefix of its record; each record is
    its elements joined by ['*']. *)
Theorem X14_identifier_invariants :
  forall path content self,
  exists rep self',
    analyze_file path (ReadOk content) self = inr (rep, self')
    /\ report_segments_found rep
       = map identifier (extract_segments content)
    /\ length (report_segments_found rep)
       = length (extract_segments content)
    /\ Forall (fun seg_id => ~ In STAR seg_id /\ ~ In TILDE seg_id
                             /\ Py.lstrip seg_id = seg_id)
              (report_segments_found rep)
    /\ Forall (fun r => Py.startswith (identifier r) r = true
                        /\ Py.join STAR (elements r) = r)
              (extract_segments content).
Proof.
  intros path content self; rewrite read_ok_report.
  do 2 eexists; split; [reflexivity|].
  cbn [report_segments_found].
  split; [reflexivity|split; [apply length_map|split]].
  - apply Forall_forall; intros seg_id Hin.
    apply in_map_iff in Hin as (r & <- & Hr).
    pose proof (extract_segments_records content) as Hall.
    rewrite Forall_forall in Hall.
    destruct (clean_ends r (Hall r Hr)) as (Hl & _ & _).
    split; [apply identifier_star_free|split].
    + intros Hin; apply identifier_incl in Hin.
      exact (proj2 (proj2 (Hall r Hr)) Hin).
    + apply PyFacts.lstrip_fixed, identifier_no_lead, Hl.
  - apply Forall_forall; intros r _.
    split; [apply identifier_prefix|apply PyFacts.join_split].
Qed.

(** ** Order of segments *)

Lemma existsb_permutation {A} (p : A -> bool) l l' :
  Permutation l l' -> existsb p l = existsb p l'.
Proof.
  induction 1 as [|x l l' _ IH|x y l|l l' l'' _ IH1 _ IH2]; cbn [existsb].
  - reflexivity.
  - now rewrite IH.
  - destruct (p x), (p y); reflexivity.
  - now rewrite IH1.
Qed.

Lemma mem_same_members x (l l' : list str) :
  (forall y, In y l <-> In y l') -> Py.mem x l = Py.mem x l'.
Proof.
  intros H; apply eq_iff_eq_true; rewrite !mem_In; apply H.
Qed.

(** X15. Query-method inference does not depend on the order of the
    segments or on repetitions: any rearrangement of the segment list
    gives the same query method and the same finding.  Likewise the
    required-segment pass depends only on which identifiers occur in
    [segments_found], not on their order or number. *)
Theorem X15_order_insensitive_passes :
  (forall cfg segments segments',
      Permutation segments segments' ->
      detected_method cfg segments = detected_method cfg segments'
      /\ query_findings cfg segments = query_findings cfg segments')
  /\ (forall cfg found found',
         (forall seg_id, In seg_id found <-> In seg_id found') ->
         required_findings cfg found = required_findings cfg found').
Proof.
  split.
  - intros cfg segments segments' Hp.
    pose proof (detect_decision cfg segments) as H1.
    pose proof (detect_decision cfg segments') as H2.
    cbv zeta in H1, H2.
    rewrite <- !(existsb_permutation _ _ _ Hp) in H2.
    rewrite <- H2 in H1; injection H1 as -> ->; split; reflexivity.
  - intros cfg found found' Hsame.
    rewrite !required_appended; f_equal.
    apply filter_ext; intros x; f_equal.
    now apply mem_same_members.
Qed.

(** X15 on a reordered inquiry and on a repeated identifier. *)
Lemma X15_order_insensitive_witness :
  let cfg := mkConfig (lit "005010X215") true [lit "ISA"; lit "BHT"] true
               false in
  detected_method cfg [lit "DMG*D8*1980"; lit "NM1*IL*DOE"]
  = detected_method cfg [lit "NM1*IL*DOE"; lit "DMG*D8*1980"]
  /\ required_findings cfg [lit "ISA"; lit "ISA"]
     = required_findings cfg [lit "ISA"].
Proof.
  intros cfg; split.
  - apply (proj1 X15_order_insensitive_passes cfg), perm_swap.
  - apply (proj2 X15_order_insensitive_passes cfg).
    intros seg_id; cbn; tauto.
Defined.

(** * Export and command line *)

Lemma map_injective {A B} (f : A -> B) :
  (forall x y, f x = f y -> x = y) ->
  forall l l', map f l = map f l' -> l = l'.
Proof.
  intros Hf l; induction l as [|x l IH]; intros [|y l'] H;
    try discriminate; [reflexivity|].
  injection H as Hx Hl; f_equal; auto.
Qed.

Lemma json_optional_injective {A} (f : A -> json) :
  (forall x y, f x = f y -> x = y) ->
  (forall x, f x <> JNull) ->
  forall o o', json_optional f o = json_optional f o' -> o = o'.
Proof.
  intros Hf Hn [x|] [y|] H; cbn in H.
  - f_equal; auto.
  - now apply Hn in H.
  - symmetry in H; now apply Hn in H.
  - reflexivity.
Qed.

Lemma Severity_value_injective a b :
  Severity_value a = Severity_value b -> a = b.
Proof. destruct a, b; intros H; try reflexivity; discriminate H. Qed.

Lemma JStr_injective x y : JStr x = JStr y -> x = y.
Proof. now intros [=]. Qed.

Lemma result_dict_injective r r' :
  result_dict r = result_dict r' -> r = r'.
Proof.
  destruct r as [sev c m seg ln ctx], r' as [sev' c' m' seg' ln' ctx'].
  unfold result_dict; cbn [severity code message segment line_number context].
  intros H; injection H as Hsev Hc Hm Hseg Hln Hctx.
  apply Severity_value_injective in Hsev.
  apply (json_optional_injective JStr JStr_injective) in Hseg;
    [|discriminate].
  apply (json_optional_injective JInt) in Hln;
    [|now intros x y [=]|discriminate].
  apply map_injective in Hctx;
    [|intros [k v] [k' v']; cbn; now intros [= -> ->]].
  now subst.
Qed.

(** X16. The exported document determines the report: two reports with
    the same [report_dict] are the same report, so the export loses
    nothing, neither a finding nor its severity, segment, line number or
    context, nor the distinction between an absent and a present query
    method. *)
Theorem X16_export_is_faithful :
  forall report report',
    report_dict report = report_dict report' -> report = report'.
Proof.
  intros [fp tr v ec wc ic rs qm found] [fp' tr' v' ec' wc' ic' rs' qm' found'].
  unfold report_dict;
    cbn [file_path tr3_version is_valid error_count warning_count
         info_count report_results report_query_method
         report_segments_found].
  intros H; injection H as Hfp Htr Hv Hec Hwc Hic Hqm Hfound Hrs.
  apply (json_optional_injective JStr JStr_injective) in Hqm;
    [|discriminate].
  apply (map_injective JStr JStr_injective) in Hfound.
  apply (map_injective result_dict result_dict_injective) in Hrs.
  now subst.
Qed.

(** X16 on the report of a read failure. *)
Lemma X16_export_witness :
  let report :=
    mkAnalysisReport (lit "in.edi") (lit "005010X215") false 1 0 0
      [SYS_error (lit "Failed to read file: gone")] None [] in
  report_dict report = report_dict report /\ report = report.
Proof.
  intros report; split; [reflexivity|].
  exact (X16_export_is_faithful report report eq_refl).
Defined.









(** * Classes of findings *)

Lemma qre_findings_named cfg segments :
  Forall (fun f => segment f <> None) (qre_findings cfg segments).
Proof.
  unfold qre_findings; rewrite qre_appended; cbv zeta.
  destruct (minimalDataPrinciple cfg); [|constructor].
  all_cases; repeat (apply Forall_cons; [discriminate|]); apply Forall_nil.
Qed.

Lemma prefix_excludes p q c :
  Py.startswith p c = true ->
  (forall r, Py.startswith q (p ++ r) = false) ->
  Py.startswith q c = false.
Proof.
  intros Hp Hq; apply PyFacts.startswith_app in Hp as [r ->]; apply Hq.
Qed.

(** X19. The two kinds of report never mix.  After a successful read
    every finding has an ENV or QRE code and names a segment, none has a
    SYS code, and there are at least one and at most eight findings plus
    one per required identifier.  After a failed read every finding has
    a SYS code and names no segment. *)
Theorem X19_finding_classes_never_mix :
  forall path rd self,
  exists rep self',
    analyze_file path rd self = inr (rep, self')
    /\ match rd with
       | ReadOk _ =>
           Forall (fun f =>
                     (Py.startswith (lit "ENV") (code f) = true
                      \/ Py.startswith (lit "QRE") (code f) = true)
                     /\ Py.startswith (lit "SYS") (code f) = false
                     /\ segment f <> None)
                  (report_results rep)
           /\ 1 <= length (report_results rep)
              <= 8 + length (requiredSegments (config self))
       | ReadFailed _ =>
           Forall (fun f => Py.startswith (lit "SYS") (code f) = true
                            /\ segment f = None)
                  (report_results rep)
       end.
Proof.
  intros path [content|e] self.
  - rewrite read_ok_report; do 2 eexists; split; [reflexivity|].
    cbn [report_results].
    destruct (envelope_findings_classes (config self)
                (extract_segments content)) as [He1 He2].
    destruct (qre_findings_classes (config self)
                (extract_segments content)) as [Hq1 Hq2].
    pose proof (qre_findings_named (config self)
                  (extract_segments content)) as Hq3.
    destruct (query_findings_single (config self)
                (extract_segments content)) as [f Hf].
    assert (Hfc : Py.startswith (lit "QRE") (code f) = true
                  /\ segment f <> None).
    { pose proof (detect_decision (config self) (extract_segments content))
        as Hd; cbv zeta in Hd; rewrite Hf in Hd.
      destruct (existsb (has_fields [lit "REF"; lit "D9"]) _);
        [|destruct (existsb _ _ && existsb _ _)];
        injection Hd as _ ->; split; (reflexivity || discriminate). }
    assert (Hreq : length (required_findings (config self)
                             (map identifier (extract_segments content)))
                   <= length (requiredSegments (config self))).
    { rewrite required_appended, length_map; apply filter_length_le. }
    assert (Henv : forall c, Py.startswith (lit "ENV") c = true ->
                             Py.startswith (lit "SYS") c = false)
      by (intros c Hc; now apply (prefix_excludes _ _ _ Hc)).
    assert (Hqre : forall c, Py.startswith (lit "QRE") c = true ->
                             Py.startswith (lit "SYS") c = false)
      by (intros c Hc; now apply (prefix_excludes _ _ _ Hc)).
    split; [|rewrite !length_app, Hf; cbn [length]; lia].
    repeat rewrite Forall_app; repeat split.
    + eapply Forall_impl; [|exact He2]; cbv beta.
      intros a (Hc & _ & Hs); split; [now left|split; [auto|]].
      destruct Hs as [-> | [-> | ->]]; discriminate.
    + rewrite required_appended; apply Forall_forall; intros a Ha.
      apply in_map_iff in Ha as (x & <- & _).
      split; [now right|split; [reflexivity|discriminate]].
    + rewrite Forall_forall in Hq2, Hq3 |- *; intros a Ha.
      destruct (Hq2 a Ha) as [Hc _].
      split; [now right|split; [auto|now apply Hq3]].
    + rewrite Hf; constructor; [|constructor].
      destruct Hfc as [Hc Hs]; split; [now right|split; [auto|exact Hs]].
  - do 2 eexists; split; [reflexivity|].
    repeat constructor.
Qed.
